(** * ESP32-C3 temperature monitor: connectivity supervisor

    A shallow embedding of [src/main.cpp].  The sketch is a single-threaded
    Arduino program: [setup] runs once, then [loop] runs for ever.  Every
    function of the sketch is translated to a function of the same name in a
    small monad that threads the sketch's global variables, collects the
    calls made to the outside world (WiFi, MQTT client, sensor, serial
    console, [delay]) as a list of events, and stops at [ESP.restart()].

    What the outside world answers (the clock, [WiFi.status()],
    [mqttClient.connected()], [mqttClient.connect()], the sensor reading,
    inbound MQTT messages) is an explicit argument of the function that
    asks for it, so every theorem quantifies over all behaviours of the
    environment. *)

From Stdlib Require Import ZArith QArith Qround Qabs List String Ascii Bool.
From Stdlib Require Import Lia Lqa.
From Stdlib Require Import DecimalString DecimalPos DecimalN.
Import ListNotations.
Open Scope Z_scope.

(** ** Machine integers

    [unsigned long] is 32 bits wide on the ESP32-C3 (RV32, ILP32).  A value
    of that type is a [Z] in [0, 2^32); subtraction wraps around. *)

Module ULong.

Definition modulus : Z := 2 ^ 32.

Definition wrap (z : Z) : Z := z mod modulus.

(** [a - b] on two [unsigned long] operands. *)
Definition sub (a b : Z) : Z := wrap (a - b).

End ULong.

(** [millis()]: the number of milliseconds since boot, truncated to an
    [unsigned long].  The argument is the true (unbounded) number of
    milliseconds elapsed since boot when the call is made. *)
Definition millis (clock : Z) : Z := ULong.wrap clock.

(** ** Constants of the sketch *)

Definition ONE_WIRE_BUS : Z := 1.
Definition SAMPLE_INTERVAL : Z := 10000.
Definition MQTT_TOPIC_STATUS : string := "esp32/status".
Definition MQTT_TOPIC_TEMPERATURE : string := "sensor3/temp".
Definition MQTT_PORT : Z := 1883.
Definition MQTT_RECONNECT_INTERVAL : Z := 5000.

(** [DEVICE_DISCONNECTED_C] of DallasTemperature.h: the value
    [getTempCByIndex] returns when the sensor cannot be read. *)
Definition DEVICE_DISCONNECTED_C : Q := (-127) # 1.

(** The credentials of [config.h], which is not part of the sources. *)
Record config : Type := {
  ssid : string;
  password : string;
  mqtt_server : string
}.

(** ** Global variables *)

Record globals : Type := {
  lastSampleTime : Z;
  wifiConnected : bool;
  mqttConnected : bool;
  lastReconnectAttempt : Z;
  lastMqttPublish : Z;
  (* the callback pointer held by the global [mqttClient] object *)
  callbackSet : bool
}.

(** The values of the initialisers. *)
Definition boot : globals := {|
  lastSampleTime := 0;
  wifiConnected := false;
  mqttConnected := false;
  lastReconnectAttempt := 0;
  lastMqttPublish := 0;
  callbackSet := false
|}.

Definition set_lastSampleTime (v : Z) (g : globals) : globals :=
  {| lastSampleTime := v;
     wifiConnected := wifiConnected g;
     mqttConnected := mqttConnected g;
     lastReconnectAttempt := lastReconnectAttempt g;
     lastMqttPublish := lastMqttPublish g;
     callbackSet := callbackSet g |}.

Definition set_wifiConnected (v : bool) (g : globals) : globals :=
  {| lastSampleTime := lastSampleTime g;
     wifiConnected := v;
     mqttConnected := mqttConnected g;
     lastReconnectAttempt := lastReconnectAttempt g;
     lastMqttPublish := lastMqttPublish g;
     callbackSet := callbackSet g |}.

Definition set_mqttConnected (v : bool) (g : globals) : globals :=
  {| lastSampleTime := lastSampleTime g;
     wifiConnected := wifiConnected g;
     mqttConnected := v;
     lastReconnectAttempt := lastReconnectAttempt g;
     lastMqttPublish := lastMqttPublish g;
     callbackSet := callbackSet g |}.

Definition set_lastReconnectAttempt (v : Z) (g : globals) : globals :=
  {| lastSampleTime := lastSampleTime g;
     wifiConnected := wifiConnected g;
     mqttConnected := mqttConnected g;
     lastReconnectAttempt := v;
     lastMqttPublish := lastMqttPublish g;
     callbackSet := callbackSet g |}.

Definition set_callbackSet (v : bool) (g : globals) : globals :=
  {| lastSampleTime := lastSampleTime g;
     wifiConnected := wifiConnected g;
     mqttConnected := mqttConnected g;
     lastReconnectAttempt := lastReconnectAttempt g;
     lastMqttPublish := lastMqttPublish g;
     callbackSet := v |}.

(** ** Calls to the outside world *)

Inductive event : Type :=
| SerialBegin (baud : Z)
| SerialPrint (s : string)
| SerialPrintln (s : string)
| SerialPrintNum (n : Z)
| SerialPrintlnNum (n : Z)
| SerialPrintFloat (x : Q)
| WiFiEnableAP (on : bool)
| WiFiModeSTA
| WiFiSetTxPower (level : string)
| WiFiBegin (id pw : string)
| Delay (ms : Z)
| EspRestart
| MqttSetServer (host : string) (port : Z)
| MqttSetCallback
| MqttConnect (id : string)
| MqttPublish (topic payload : string)
| MqttLoop
| SensorsBegin
| RequestTemperatures.

Definition is_publish_on (topic : string) (e : event) : bool :=
  match e with
  | MqttPublish t _ => String.eqb t topic
  | _ => false
  end.

Definition is_publish (e : event) : bool :=
  match e with MqttPublish _ _ => true | _ => false end.

Definition is_connect (e : event) : bool :=
  match e with MqttConnect _ => true | _ => false end.

Definition is_wifi_begin (e : event) : bool :=
  match e with WiFiBegin _ _ => true | _ => false end.

Definition is_restart (e : event) : bool :=
  match e with EspRestart => true | _ => false end.

Definition is_delay (e : event) : bool :=
  match e with Delay _ => true | _ => false end.

Definition is_pump (e : event) : bool :=
  match e with MqttLoop => true | _ => false end.

Definition is_request (e : event) : bool :=
  match e with RequestTemperatures => true | _ => false end.

Definition is_console (e : event) : bool :=
  match e with
  | SerialBegin _ | SerialPrint _ | SerialPrintln _ | SerialPrintNum _
  | SerialPrintlnNum _ | SerialPrintFloat _ => true
  | _ => false
  end.

(** Number of events of a trace that satisfy [p]. *)
Definition count (p : event -> bool) (tr : list event) : nat :=
  List.length (filter p tr).

(** ** The monad of the sketch

    A computation starts from the current globals and either returns a
    value, or ends in [ESP.restart()], which never returns.  Both outcomes
    carry the globals and the events of the computation, oldest first. *)

Inductive outcome (A : Type) : Type :=
| Returned (a : A) (g : globals) (tr : list event)
| Restarted (g : globals) (tr : list event).

Arguments Returned {A} a g tr.
Arguments Restarted {A} g tr.

Definition prog (A : Type) : Type := globals -> outcome A.

Definition ret {A} (a : A) : prog A := fun g => Returned a g [].

Definition bind {A B} (c : prog A) (k : A -> prog B) : prog B :=
  fun g =>
    match c g with
    | Returned a g1 tr1 =>
        match k a g1 with
        | Returned b g2 tr2 => Returned b g2 (tr1 ++ tr2)
        | Restarted g2 tr2 => Restarted g2 (tr1 ++ tr2)
        end
    | Restarted g1 tr1 => Restarted g1 tr1
    end.

Definition emit (e : event) : prog unit := fun g => Returned tt g [e].

Definition get : prog globals := fun g => Returned g g [].

Definition modify (f : globals -> globals) : prog unit :=
  fun g => Returned tt (f g) [].

(** [ESP.restart()] *)
Definition restart {A} : prog A := fun g => Restarted g [EspRestart].

Declare Scope prog_scope.
Delimit Scope prog_scope with prog.
Notation "x <- c ;; k" := (bind c (fun x => k))
  (at level 61, c at next level, right associativity) : prog_scope.
Notation "c ;; k" := (bind c (fun _ => k))
  (at level 61, right associativity) : prog_scope.
Open Scope prog_scope.

Definition events {A} (o : outcome A) : list event :=
  match o with Returned _ _ tr => tr | Restarted _ tr => tr end.

Definition final {A} (o : outcome A) : globals :=
  match o with Returned _ g _ => g | Restarted g _ => g end.

Definition value {A} (o : outcome A) : option A :=
  match o with Returned a _ _ => Some a | Restarted _ _ => None end.

Definition returns {A} (o : outcome A) : bool :=
  match o with Returned _ _ _ => true | Restarted _ _ => false end.

(** ** Number formatting

    [dtostrf(number, width, prec, buf)] belongs to the Arduino core, not to
    the sketch.  The definition below is its documented behaviour on exact
    rationals: the magnitude is rounded half up to [prec] fractional digits,
    printed as integer digits, a point and exactly [prec] digits, preceded
    by a minus sign when the argument is negative, and the whole is padded
    on the left with blanks up to [width] characters.  Temperatures are
    rationals here; the rounding error of [float] is outside the model.

    The library routine computes in binary doubles: it adds half a unit of
    the last digit and then truncates digit by digit.  For a reading that
    lies exactly half-way between two tenths (21.25, 23.75) it may
    therefore print the lower tenth where this definition prints the upper
    one.  The two agree on the sign, the padding and the number of
    characters, and on the digits of every reading that is not such a tie.
    No theorem below states to which side an exact tie goes.  The library
    prints "nan" and "inf" for those doubles; a rational is neither. *)

Definition digit_char (d : Z) : ascii := ascii_of_nat (48 + Z.to_nat d).

Definition decimal (n : Z) : string :=
  NilZero.string_of_uint (N.to_uint (Z.to_N n)).

Fixpoint frac_digits (prec : nat) (f : Z) : string :=
  match prec with
  | O => EmptyString
  | S p => frac_digits p (f / 10) ++ String (digit_char (f mod 10)) EmptyString
  end.

Fixpoint blanks (n : nat) : string :=
  match n with
  | O => EmptyString
  | S k => String " " (blanks k)
  end.

Definition dtostrf (number : Q) (width : Z) (prec : nat) : string :=
  let negative := negb (Qle_bool 0 number) in
  let unit := 10 ^ Z.of_nat prec in
  let scaled := Qfloor (Qabs number * inject_Z unit + (1 # 2)) in
  let body :=
    ((if negative then "-" else "")
       ++ decimal (scaled / unit)
       ++ match prec with
          | O => ""
          | S _ => "." ++ frac_digits prec (scaled mod unit)
          end)%string in
  (blanks (Z.to_nat (width - Z.of_nat (String.length body))) ++ body)%string.

(** ** What the environment answers *)

Record message : Type := {
  msg_topic : string;
  msg_payload : list ascii
}.

(** Answers needed by one call of [handleMQTTConnection]. *)
Record tick_input : Type := {
  clock : Z;             (* true time, in ms since boot, of the millis() call *)
  link_up : bool;        (* WiFi.status() == WL_CONNECTED at the first test *)
  assoc : nat -> bool;   (* the same test, k-th time round in connectToWiFi *)
  session_up : bool;     (* mqttClient.connected() *)
  handshake : bool;      (* mqttClient.connect(...) *)
  state_code : Z;        (* mqttClient.state() *)
  inbox : list message   (* what mqttClient.loop() receives *)
}.

(** Answers needed by one iteration of [loop]. *)
Record loop_input : Type := {
  loop_clock : Z;        (* true time of the millis() call of loop *)
  tick : tick_input;
  temp : Q               (* sensors.getTempCByIndex(0) *)
}.

(** Answers needed by [setup]. *)
Record setup_input : Type := {
  device_count : Z;          (* sensors.getDeviceCount() *)
  boot_assoc : nat -> bool;
  boot_handshake : bool;
  boot_state_code : Z
}.

Definition nl : string := String (ascii_of_nat 10) EmptyString.

(** ** The sketch *)

Section Sketch.

Variable cfg : config.

(** [mqttCallback]: copies [length] bytes of the payload into a string and
    logs it. *)
Definition mqttCallback (topic : string) (payload : list ascii)
    (length : nat) : prog unit :=
  let message :=
    fold_left
      (fun (message : string) (i : nat) =>
         (message ++ String (nth i payload zero) EmptyString)%string)
      (seq 0 length) EmptyString in
  emit (SerialPrint "MQTT Message received [") ;;
  emit (SerialPrint topic) ;;
  emit (SerialPrint "]: ") ;;
  emit (SerialPrintln message).

(** The body of [while (WiFi.status() != WL_CONNECTED)] in
    [connectToWiFi].  [poll] counts the tests made so far. *)
Fixpoint await_link (status : nat -> bool) (poll trying : nat)
    : prog unit :=
  if status poll then ret tt
  else
    emit (SerialPrint ".") ;;
    emit (Delay 1000) ;;
    match trying with
    | O => restart
    | S trying' => await_link status (S poll) trying'
    end.

Definition connectToWiFi (status : nat -> bool) : prog bool :=
  emit (WiFiEnableAP false) ;;
  emit WiFiModeSTA ;;
  emit (WiFiSetTxPower "WIFI_POWER_8_5dBm") ;;
  emit (WiFiBegin (ssid cfg) (password cfg)) ;;
  await_link status 0 10 ;;
  ret true.

Definition connectToMQTT (connect_ok : bool) (state : Z) : prog bool :=
  emit (MqttSetServer (mqtt_server cfg) MQTT_PORT) ;;
  emit MqttSetCallback ;;
  modify (set_callbackSet true) ;;
  emit (SerialPrint "Connecting to MQTT broker ") ;;
  emit (SerialPrint (mqtt_server cfg)) ;;
  emit (SerialPrint ":") ;;
  emit (SerialPrintNum MQTT_PORT) ;;
  emit (MqttConnect (mqtt_server cfg)) ;;
  if connect_ok then
    emit (SerialPrintln (nl ++ "MQTT connected!")) ;;
    emit (MqttPublish MQTT_TOPIC_STATUS "online") ;;
    modify (set_mqttConnected true) ;;
    ret true
  else
    emit (SerialPrintln (nl ++ "MQTT connection failed!")) ;;
    emit (SerialPrint "Error code: ") ;;
    emit (SerialPrintlnNum state) ;;
    modify (set_mqttConnected false) ;;
    ret false.

Definition publishTemperatureData (currentTemp : Q) : prog unit :=
  let payload := dtostrf currentTemp 6 1 in
  emit (MqttPublish MQTT_TOPIC_TEMPERATURE payload) ;;
  emit (SerialPrint "Published to MQTT: ") ;;
  emit (SerialPrint payload) ;;
  emit (SerialPrintln " C").

(** [mqttClient.loop()] of PubSubClient: every PUBLISH packet it reads is
    passed to the callback, when one has been set. *)
Fixpoint deliver (msgs : list message) : prog unit :=
  match msgs with
  | [] => ret tt
  | m :: rest =>
      mqttCallback (msg_topic m) (msg_payload m)
        (List.length (msg_payload m)) ;;
      deliver rest
  end.

Definition mqttClient_loop (msgs : list message) : prog unit :=
  emit MqttLoop ;;
  g <- get ;;
  if callbackSet g then deliver msgs else ret tt.

Definition handleMQTTConnection (i : tick_input) : prog unit :=
  let currentTime := millis (clock i) in
  if negb (link_up i) then
    modify (set_wifiConnected false) ;;
    modify (set_mqttConnected false) ;;
    emit (SerialPrintln "WiFi disconnected!") ;;
    ok <- connectToWiFi (assoc i) ;;
    (if ok : bool
     then _ <- connectToMQTT (handshake i) (state_code i) ;; ret tt
     else ret tt)
  else
    if negb (session_up i) then
      modify (set_mqttConnected false) ;;
      g <- get ;;
      if MQTT_RECONNECT_INTERVAL <? ULong.sub currentTime (lastReconnectAttempt g)
      then
        modify (set_lastReconnectAttempt currentTime) ;;
        emit (SerialPrintln "Attempting MQTT reconnection...") ;;
        ok <- connectToMQTT (handshake i) (state_code i) ;;
        if ok : bool
        then emit (SerialPrintln "MQTT reconnected successfully!")
        else ret tt
      else ret tt
    else
      mqttClient_loop (inbox i).

Definition setup (i : setup_input) : prog unit :=
  emit (SerialBegin 115200) ;;
  emit (SerialPrintln "ESP32-C3 Temperature Monitoring System with MQTT") ;;
  emit (SerialPrintln "================================================") ;;
  emit SensorsBegin ;;
  emit (SerialPrint "Found ") ;;
  emit (SerialPrintNum (device_count i)) ;;
  emit (SerialPrintln " DS18B20 sensor(s)") ;;
  emit (SerialPrintln (nl ++ "Initializing network connections...")) ;;
  ok <- connectToWiFi (boot_assoc i) ;;
  (if ok : bool
   then _ <- connectToMQTT (boot_handshake i) (boot_state_code i) ;; ret tt
   else
     emit (SerialPrintln "WiFi connection failed. MQTT will be disabled.") ;;
     emit (SerialPrintln "Please check your WiFi credentials in the code.")) ;;
  emit (SerialPrintln "Setup complete!") ;;
  emit (SerialPrintln "================================================").

Definition loop (i : loop_input) : prog unit :=
  let currentTime := millis (loop_clock i) in
  handleMQTTConnection (tick i) ;;
  g <- get ;;
  (if SAMPLE_INTERVAL <=? ULong.sub currentTime (lastSampleTime g) then
     modify (set_lastSampleTime currentTime) ;;
     emit RequestTemperatures ;;
     let currentTemp := temp i in
     emit (SerialPrint "Current temperature: ") ;;
     emit (SerialPrintFloat currentTemp) ;;
     emit (SerialPrintln " C") ;;
     g <- get ;;
     if mqttConnected g then publishTemperatureData currentTemp else ret tt
   else ret tt) ;;
  emit (Delay 10).

(** The Arduino runtime calls [loop] for ever; [run] is a finite prefix of
    that, one input per iteration.  Nothing runs after a restart. *)
Fixpoint run (inputs : list loop_input) : prog unit :=
  match inputs with
  | [] => ret tt
  | i :: rest => loop i ;; run rest
  end.

End Sketch.

(** * Observations

    Names for the traces and globals the functions of the sketch produce,
    and for what is observed of an outcome. *)

(** The calls [connectToWiFi] makes before it starts to wait. *)
Definition link_init (cfg : config) : list event :=
  [WiFiEnableAP false; WiFiModeSTA; WiFiSetTxPower "WIFI_POWER_8_5dBm";
   WiFiBegin (ssid cfg) (password cfg)].

(** [k] rounds of the waiting loop. *)
Fixpoint waits (k : nat) : list event :=
  match k with
  | O => []
  | S k' => SerialPrint "." :: Delay 1000 :: waits k'
  end.

(** The calls of one session handshake, successful or not. *)
Definition handshake_trace (cfg : config) (ok : bool) (code : Z) : list event :=
  [MqttSetServer (mqtt_server cfg) MQTT_PORT; MqttSetCallback;
   SerialPrint "Connecting to MQTT broker "; SerialPrint (mqtt_server cfg);
   SerialPrint ":"; SerialPrintNum MQTT_PORT; MqttConnect (mqtt_server cfg)]
  ++ (if ok
      then [SerialPrintln (nl ++ "MQTT connected!");
            MqttPublish MQTT_TOPIC_STATUS "online"]
      else [SerialPrintln (nl ++ "MQTT connection failed!");
            SerialPrint "Error code: "; SerialPrintlnNum code]).

(** Globals on entry of the link-down branch of [handleMQTTConnection]. *)
Definition link_lost (g : globals) : globals :=
  set_mqttConnected false (set_wifiConnected false g).

(** What [mqttCallback] writes to the console for one message. *)
Definition callback_trace (m : message) : list event :=
  events (mqttCallback (msg_topic m) (msg_payload m)
            (List.length (msg_payload m)) boot).

(** The test of the sampling timer in [loop], from the globals [g1] left by
    the maintenance tick. *)
Definition sample_due (i : loop_input) (g1 : globals) : bool :=
  SAMPLE_INTERVAL <=? ULong.sub (millis (loop_clock i)) (lastSampleTime g1).

(** The calls of [publishTemperatureData]. *)
Definition publish_trace (t : Q) : list event :=
  [MqttPublish MQTT_TOPIC_TEMPERATURE (dtostrf t 6 1);
   SerialPrint "Published to MQTT: "; SerialPrint (dtostrf t 6 1);
   SerialPrintln " C"].

(** The calls of the sampling part of [loop]. *)
Definition sample_trace (i : loop_input) (g1 : globals) : list event :=
  if sample_due i g1 then
    [RequestTemperatures; SerialPrint "Current temperature: ";
     SerialPrintFloat (temp i); SerialPrintln " C"]
    ++ (if mqttConnected g1 then publish_trace (temp i) else [])
  else [].

(** The calls of [setup] before and after it connects. *)
Definition setup_banner (i : setup_input) : list event :=
  [SerialBegin 115200;
   SerialPrintln "ESP32-C3 Temperature Monitoring System with MQTT";
   SerialPrintln "================================================";
   SensorsBegin; SerialPrint "Found "; SerialPrintNum (device_count i);
   SerialPrintln " DS18B20 sensor(s)";
   SerialPrintln (nl ++ "Initializing network connections...")].

Definition setup_footer : list event :=
  [SerialPrintln "Setup complete!";
   SerialPrintln "================================================"].

(** [prepend tr o]: the outcome [o], reached after the events [tr]. *)
Definition prepend {A} (tr : list event) (o : outcome A) : outcome A :=
  match o with
  | Returned a g t => Returned a g (tr ++ t)
  | Restarted g t => Restarted g (tr ++ t)
  end.

(** A computation is well stopped when [ESP.restart()] is the last thing it
    does, if it does it at all. *)
Definition well_stopped {A} (o : outcome A) : Prop :=
  match o with
  | Returned _ _ tr => count is_restart tr = 0%nat
  | Restarted _ tr =>
      exists tr', tr = tr' ++ [EspRestart] /\ count is_restart tr' = 0%nat
  end.

(** The event is the console line [s]. *)
Definition is_note (s : string) (e : event) : bool :=
  match e with
  | SerialPrintln t => String.eqb t s
  | _ => false
  end.

(** The same iteration with another sensor reading. *)
Definition with_temp (t : Q) (i : loop_input) : loop_input :=
  {| loop_clock := loop_clock i; tick := tick i; temp := t |}.

(** The iteration made a session handshake on a tick that found the link
    up: the rate-limited path of [handleMQTTConnection]. *)
Definition timed_handshake (cfg : config) (i : loop_input) (g : globals)
    : bool :=
  link_up (tick i)
  && negb (Nat.eqb (count is_connect (events (loop cfg i g))) 0).

(** A stretch of iterations, none cut short by a restart, without such a
    handshake. *)
Fixpoint quiet (cfg : config) (inputs : list loop_input) (g : globals)
    : Prop :=
  match inputs with
  | [] => True
  | i :: rest =>
      timed_handshake cfg i g = false
      /\ returns (loop cfg i g) = true
      /\ quiet cfg rest (final (loop cfg i g))
  end.

(** Milliseconds spent in [delay] over a trace. *)
Fixpoint total_delay (tr : list event) : Z :=
  match tr with
  | [] => 0
  | Delay ms :: rest => ms + total_delay rest
  | _ :: rest => total_delay rest
  end.

(** The tick finds the link down and none of the eleven status tests of
    [connectToWiFi] succeeds. *)
Definition link_fatal (t : tick_input) : bool :=
  negb (link_up t) && forallb (fun k => negb (assoc t k)) (seq 0 11).

(** The test of the reconnect timer in [handleMQTTConnection]. *)
Definition reconnect_due (t : tick_input) (g : globals) : bool :=
  MQTT_RECONNECT_INTERVAL
    <? ULong.sub (millis (clock t)) (lastReconnectAttempt g).

(** The iteration asked the sensor for a sample. *)
Definition sampled (cfg : config) (i : loop_input) (g : globals) : bool :=
  negb (Nat.eqb (count is_request (events (loop cfg i g))) 0).

(** A stretch of iterations, none cut short by a restart, without a
    sample. *)
Fixpoint idle (cfg : config) (inputs : list loop_input) (g : globals)
    : Prop :=
  match inputs with
  | [] => True
  | i :: rest =>
      sampled cfg i g = false
      /\ returns (loop cfg i g) = true
      /\ idle cfg rest (final (loop cfg i g))
  end.

(** A publish on a topic other than the two of the sketch. *)
Definition is_stray_publish (e : event) : bool :=
  is_publish e
  && negb (is_publish_on MQTT_TOPIC_STATUS e
           || is_publish_on MQTT_TOPIC_TEMPERATURE e).

(** * Reading a payload back

    Not part of the sketch: what a subscriber does with the payload of the
    temperature topic. *)

(** Leading blanks are skipped, then come an optional minus sign, integer
    digits and, after a point, fractional digits. *)
Fixpoint skip_blanks (s : string) : string :=
  match s with
  | String c r => if Ascii.eqb c " " then skip_blanks r else s
  | EmptyString => s
  end.

Fixpoint split_point (s : string) : string * option string :=
  match s with
  | EmptyString => (EmptyString, None)
  | String c r =>
      if Ascii.eqb c "."
      then (EmptyString, Some r)
      else let (a, b) := split_point r in (String c a, b)
  end.

Definition parse_unsigned (s : string) : option Q :=
  match split_point s with
  | (ip, Some fp) =>
      match NilZero.uint_of_string ip, NilEmpty.uint_of_string fp with
      | Some a, Some b =>
          let unit := 10 ^ Z.of_nat (String.length fp) in
          Some (Qmake (Z.of_N (N.of_uint a) * unit + Z.of_N (N.of_uint b))
                  (Z.to_pos unit))
      | _, _ => None
      end
  | (ip, None) =>
      option_map (fun a => inject_Z (Z.of_N (N.of_uint a)))
        (NilZero.uint_of_string ip)
  end.

Definition parse_fixed (s : string) : option Q :=
  match skip_blanks s with
  | String c r =>
      if Ascii.eqb c "-"
      then option_map Qopp (parse_unsigned r)
      else parse_unsigned (String c r)
  | EmptyString => None
  end.

(** What the payload of [dtostrf t 6 1], as defined above, reads back as:
    a nearest tenth of the reading, as a fraction with denominator 10. *)
Definition round_tenths (t : Q) : Q :=
  let tenths := Qfloor (Qabs t * inject_Z 10 + (1 # 2)) in
  Qmake (if Qle_bool 0 t then tenths else - tenths) 10.

Definition is_digit (c : ascii) : bool :=
  (48 <=? nat_of_ascii c)%nat && (nat_of_ascii c <=? 57)%nat.

Fixpoint all_digits (s : string) : bool :=
  match s with
  | EmptyString => true
  | String c r => is_digit c && all_digits r
  end.

(** * Sample inputs *)

Definition demo_config : config :=
  {| ssid := "home"; password := "secret"; mqtt_server := "broker.local" |}.

(** An access point that never answers, and one that is there at once. *)
Definition never_up : nat -> bool := fun _ => false.
Definition up_at_once : nat -> bool := fun _ => true.

(** An access point that answers from the status test number [n] on. *)
Definition up_after (n : nat) : nat -> bool := fun k => Nat.leb n k.

(** An inbound message. *)
Definition hello : message :=
  {| msg_topic := "cmd"; msg_payload := ["h"; "i"]%char |}.

(** Globals once [setup] has connected the session. *)
Definition online : globals := set_mqttConnected true (set_callbackSet true boot).

(** A tick with the link up and the client connected. *)
Definition steady_tick (now : Z) : tick_input :=
  {| clock := now; link_up := true; assoc := up_at_once;
     session_up := true; handshake := true; state_code := 0;
     inbox := [hello] |}.

(** A tick with the link up and the client not connected. *)
Definition reconnect_tick (now : Z) (ok : bool) : tick_input :=
  {| clock := now; link_up := true; assoc := up_at_once;
     session_up := false; handshake := ok; state_code := -2; inbox := [] |}.

(** A tick that finds the link down; it comes back at the first status test
    of [connectToWiFi]. *)
Definition link_flap (now : Z) : tick_input :=
  {| clock := now; link_up := false; assoc := up_at_once;
     session_up := false; handshake := true; state_code := 0; inbox := [] |}.

Definition iteration (now : Z) (t : tick_input) (reading : Q) : loop_input :=
  {| loop_clock := now; tick := t; temp := reading |}.

(** A boot with one sensor, where link and broker answer at once. *)
Definition quick_boot : setup_input :=
  {| device_count := 1; boot_assoc := up_at_once;
     boot_handshake := true; boot_state_code := 0 |}.

(** * Proofs *)

(** ** Counting events *)

Lemma count_app p (a b : list event) :
  count p (a ++ b) = (count p a + count p b)%nat.
Proof. unfold count. now rewrite filter_app, length_app. Qed.

Lemma count_cons p e (tr : list event) :
  count p (e :: tr) = ((if p e then 1 else 0) + count p tr)%nat.
Proof. unfold count. simpl. now destruct (p e). Qed.

Lemma count_zero_not_In p (tr : list event) e :
  count p tr = 0%nat -> p e = true -> ~ In e tr.
Proof.
  unfold count. intros Hc Hp Hin.
  assert (Hf : In e (filter p tr)) by (apply filter_In; auto).
  destruct (filter p tr); [contradiction | discriminate].
Qed.

Lemma count_pos_In p (tr : list event) :
  count p tr <> 0%nat -> exists e, In e tr /\ p e = true.
Proof.
  unfold count. destruct (filter p tr) as [|e l] eqn:E.
  { simpl. intros H. now elim H. }
  intros _. exists e. apply filter_In. rewrite E. now left.
Qed.

Lemma In_count_pos p (tr : list event) e :
  In e tr -> p e = true -> count p tr <> 0%nat.
Proof.
  intros Hin Hp Hc. exact (count_zero_not_In p tr e Hc Hp Hin).
Qed.

Lemma count_waits_delay k : count is_delay (waits k) = k.
Proof. induction k; simpl; auto. rewrite !count_cons, IHk. reflexivity. Qed.

Lemma count_waits_other p k :
  p (SerialPrint ".") = false -> p (Delay 1000) = false ->
  count p (waits k) = 0%nat.
Proof.
  intros H1 H2. induction k; simpl; auto.
  now rewrite !count_cons, H1, H2, IHk.
Qed.

(** ** The waiting loop of [connectToWiFi] *)

Lemma await_link_cases status trying : forall poll g,
  (exists k, (k <= trying)%nat /\ status (poll + k)%nat = true /\
     (forall j, (j < k)%nat -> status (poll + j)%nat = false) /\
     await_link status poll trying g = Returned tt g (waits k))
  \/
  ((forall j, (j <= trying)%nat -> status (poll + j)%nat = false) /\
   await_link status poll trying g
     = Restarted g (waits (S trying) ++ [EspRestart])).
Proof.
  induction trying as [|t IH]; intros poll g; simpl.
  - destruct (status poll) eqn:E.
    + left. exists 0%nat. rewrite Nat.add_0_r. repeat split; auto; lia.
    + right. split; [|reflexivity].
      intros j Hj. assert (j = 0)%nat by lia. subst. now rewrite Nat.add_0_r.
  - destruct (status poll) eqn:E.
    + left. exists 0%nat. rewrite Nat.add_0_r. repeat split; auto; lia.
    + destruct (IH (S poll) g) as [(k & Hk & Hup & Hdown & Hrun) | (Hdown & Hrun)].
      * left. exists (S k). repeat split.
        -- lia.
        -- now rewrite Nat.add_succ_r.
        -- intros [|j] Hj; [now rewrite Nat.add_0_r|].
           rewrite Nat.add_succ_r. apply (Hdown j). lia.
        -- unfold bind, emit. simpl. now rewrite Hrun.
      * right. split.
        -- intros [|j] Hj; [now rewrite Nat.add_0_r|].
           rewrite Nat.add_succ_r. apply (Hdown j). lia.
        -- unfold bind, emit. simpl. now rewrite Hrun.
Qed.

Lemma connectToWiFi_cases cfg status g :
  (exists k, (k <= 10)%nat /\ status k = true /\
     (forall j, (j < k)%nat -> status j = false) /\
     connectToWiFi cfg status g = Returned true g (link_init cfg ++ waits k))
  \/
  ((forall j, (j <= 10)%nat -> status j = false) /\
   connectToWiFi cfg status g
     = Restarted g (link_init cfg ++ waits 11 ++ [EspRestart])).
Proof.
  unfold connectToWiFi.
  destruct (await_link_cases status 10 0%nat g)
    as [(k & Hk & Hup & Hdown & Hrun) | (Hdown & Hrun)].
  - left. exists k. repeat split; auto.
    unfold bind, emit, ret. cbn -[await_link]. rewrite Hrun.
    unfold link_init. simpl. now rewrite app_nil_r.
  - right. split; auto.
    unfold bind, emit, ret. cbn -[await_link]. now rewrite Hrun.
Qed.

(** ** Laws of the monad *)

Lemma bind_Returned {A B} (c : prog A) (k : A -> prog B) g a g1 tr :
  c g = Returned a g1 tr -> bind c k g = prepend tr (k a g1).
Proof. intros H. unfold bind. rewrite H. reflexivity. Qed.

Lemma bind_Restarted {A B} (c : prog A) (k : A -> prog B) g g1 tr :
  c g = Restarted g1 tr -> bind c k g = Restarted g1 tr.
Proof. intros H. unfold bind. rewrite H. reflexivity. Qed.

Lemma prepend_nil {A} (o : outcome A) : prepend [] o = o.
Proof. now destruct o. Qed.

Lemma prepend_prepend {A} t1 t2 (o : outcome A) :
  prepend t1 (prepend t2 o) = prepend (t1 ++ t2) o.
Proof. destruct o; simpl; now rewrite app_assoc. Qed.

Lemma bind_ret {A B} (a : A) (k : A -> prog B) g : bind (ret a) k g = k a g.
Proof. rewrite (bind_Returned _ _ g a g []); [apply prepend_nil | reflexivity]. Qed.

Lemma bind_modify {B} f (k : unit -> prog B) g :
  bind (modify f) k g = k tt (f g).
Proof.
  rewrite (bind_Returned _ _ g tt (f g) []); [apply prepend_nil | reflexivity].
Qed.

Lemma bind_get {B} (k : globals -> prog B) g : bind get k g = k g g.
Proof. rewrite (bind_Returned _ _ g g g []); [apply prepend_nil | reflexivity]. Qed.

Lemma bind_emit {B} e (k : unit -> prog B) g :
  bind (emit e) k g = prepend [e] (k tt g).
Proof. now rewrite (bind_Returned _ _ g tt g [e]). Qed.

Lemma events_prepend {A} tr (o : outcome A) :
  events (prepend tr o) = tr ++ events o.
Proof. now destruct o. Qed.

Lemma final_prepend {A} tr (o : outcome A) : final (prepend tr o) = final o.
Proof. now destruct o. Qed.

Lemma returns_prepend {A} tr (o : outcome A) :
  returns (prepend tr o) = returns o.
Proof. now destruct o. Qed.

(** ** Closed forms of the sketch's functions *)

Lemma connectToMQTT_eq cfg ok code g :
  connectToMQTT cfg ok code g
  = Returned ok (set_mqttConnected ok (set_callbackSet true g))
      (handshake_trace cfg ok code).
Proof. destruct ok; reflexivity. Qed.

Lemma handle_link_down cfg i g :
  link_up i = false ->
  (exists k, (k <= 10)%nat /\ assoc i k = true /\
     (forall j, (j < k)%nat -> assoc i j = false) /\
     handleMQTTConnection cfg i g
     = Returned tt
         (set_mqttConnected (handshake i) (set_callbackSet true (link_lost g)))
         (SerialPrintln "WiFi disconnected!"
            :: link_init cfg ++ waits k
            ++ handshake_trace cfg (handshake i) (state_code i)))
  \/
  ((forall j, (j <= 10)%nat -> assoc i j = false) /\
   handleMQTTConnection cfg i g
   = Restarted (link_lost g)
       (SerialPrintln "WiFi disconnected!"
          :: link_init cfg ++ waits 11 ++ [EspRestart])).
Proof.
  intros Hlink. unfold handleMQTTConnection. rewrite Hlink.
  cbn [negb]. cbv beta iota zeta.
  rewrite !bind_modify, bind_emit. fold (link_lost g).
  destruct (connectToWiFi_cases cfg (assoc i) (link_lost g))
    as [(k & Hk & Hup & Hdown & Hrun) | (Hdown & Hrun)].
  - left. exists k. repeat split; auto.
    rewrite (bind_Returned _ _ _ _ _ _ Hrun).
    rewrite (bind_Returned _ _ _ _ _ _ (connectToMQTT_eq _ _ _ _)).
    unfold ret. simpl. now rewrite app_nil_r.
  - right. split; auto.
    rewrite (bind_Restarted _ _ _ _ _ Hrun). reflexivity.
Qed.

Lemma handle_reconnect cfg i g :
  link_up i = true -> session_up i = false ->
  MQTT_RECONNECT_INTERVAL
    < ULong.sub (millis (clock i)) (lastReconnectAttempt g) ->
  handleMQTTConnection cfg i g
  = Returned tt
      (set_mqttConnected (handshake i)
         (set_callbackSet true
            (set_lastReconnectAttempt (millis (clock i))
               (set_mqttConnected false g))))
      (SerialPrintln "Attempting MQTT reconnection..."
         :: handshake_trace cfg (handshake i) (state_code i)
         ++ (if handshake i
             then [SerialPrintln "MQTT reconnected successfully!"]
             else [])).
Proof.
  intros Hlink Hsess Hdue. apply Z.ltb_lt in Hdue.
  unfold handleMQTTConnection. rewrite Hlink, Hsess.
  cbn [negb]. cbv beta iota zeta. rewrite bind_modify, bind_get.
  cbn [lastReconnectAttempt set_mqttConnected]. rewrite Hdue.
  rewrite bind_modify, bind_emit.
  rewrite (bind_Returned _ _ _ _ _ _ (connectToMQTT_eq _ _ _ _)).
  destruct (handshake i); reflexivity.
Qed.

Lemma handle_rate_limited cfg i g :
  link_up i = true -> session_up i = false ->
  ULong.sub (millis (clock i)) (lastReconnectAttempt g)
    <= MQTT_RECONNECT_INTERVAL ->
  handleMQTTConnection cfg i g = Returned tt (set_mqttConnected false g) [].
Proof.
  intros Hlink Hsess Hwait.
  assert (Hb : (MQTT_RECONNECT_INTERVAL
                <? ULong.sub (millis (clock i)) (lastReconnectAttempt g))
               = false) by (apply Z.ltb_ge; exact Hwait).
  unfold handleMQTTConnection. rewrite Hlink, Hsess.
  cbn [negb]. cbv beta iota zeta. rewrite bind_modify, bind_get.
  cbn [lastReconnectAttempt set_mqttConnected]. rewrite Hb. reflexivity.
Qed.

Lemma handle_session_up cfg i g :
  link_up i = true -> session_up i = true ->
  handleMQTTConnection cfg i g = mqttClient_loop (inbox i) g.
Proof.
  intros Hlink Hsess. unfold handleMQTTConnection.
  now rewrite Hlink, Hsess.
Qed.

Lemma mqttCallback_eq topic payload n g :
  mqttCallback topic payload n g
  = Returned tt g (events (mqttCallback topic payload n boot)).
Proof. reflexivity. Qed.

Lemma deliver_eq msgs : forall g,
  deliver msgs g = Returned tt g (flat_map callback_trace msgs).
Proof.
  induction msgs as [|m rest IH]; intros g; [reflexivity|].
  simpl deliver.
  rewrite (bind_Returned _ _ _ _ _ _ (mqttCallback_eq _ _ _ _)), IH.
  reflexivity.
Qed.

Lemma mqttClient_loop_eq msgs g :
  mqttClient_loop msgs g
  = Returned tt g
      (MqttLoop :: if callbackSet g then flat_map callback_trace msgs else []).
Proof.
  unfold mqttClient_loop. rewrite bind_emit, bind_get.
  destruct (callbackSet g); [|reflexivity].
  now rewrite deliver_eq.
Qed.

Lemma count_callbacks p msgs :
  (forall s, p (SerialPrint s) = false) ->
  (forall s, p (SerialPrintln s) = false) ->
  count p (flat_map callback_trace msgs) = 0%nat.
Proof.
  intros H1 H2. induction msgs as [|m rest IH]; [reflexivity|].
  simpl flat_map. now rewrite !count_cons, !H1, H2, IH.
Qed.

Lemma count_handshake p cfg ok code :
  (forall e, is_console e = true -> p e = false) ->
  count p (handshake_trace cfg ok code)
  = (count p [MqttSetServer (mqtt_server cfg) MQTT_PORT; MqttSetCallback;
              MqttConnect (mqtt_server cfg)]
     + if ok then count p [MqttPublish MQTT_TOPIC_STATUS "online"] else 0)%nat.
Proof.
  intros Hc. unfold handshake_trace.
  destruct ok; rewrite count_app, !count_cons;
    rewrite ?(Hc (SerialPrint _)), ?(Hc (SerialPrintln _)),
      ?(Hc (SerialPrintNum _)), ?(Hc (SerialPrintlnNum _)) by reflexivity;
    unfold count; simpl; lia.
Qed.

(** Splits [handleMQTTConnection cfg i g] into its five paths and replaces
    the call by its closed form in each. *)
Ltac handle_paths cfg i g :=
  let Hlink := fresh "Hlink" in
  let Hsess := fresh "Hsess" in
  let Hdue := fresh "Hdue" in
  let k := fresh "k" in
  let Hk := fresh "Hk" in
  let Hup := fresh "Hup" in
  let Hdown := fresh "Hdown" in
  let Hrun := fresh "Hrun" in
  destruct (link_up i) eqn:Hlink;
  [ destruct (session_up i) eqn:Hsess;
    [ pose proof (handle_session_up cfg i g Hlink Hsess) as Hrun;
      rewrite mqttClient_loop_eq in Hrun
    | destruct (Z.lt_ge_cases MQTT_RECONNECT_INTERVAL
                  (ULong.sub (millis (clock i)) (lastReconnectAttempt g)))
        as [Hdue | Hdue];
      [ pose proof (handle_reconnect cfg i g Hlink Hsess Hdue) as Hrun
      | pose proof (handle_rate_limited cfg i g Hlink Hsess Hdue) as Hrun ] ]
  | destruct (handle_link_down cfg i g Hlink)
      as [(k & Hk & Hup & Hdown & Hrun) | (Hdown & Hrun)] ];
  rewrite ?Hrun in *.

Ltac count_events :=
  repeat first
    [ rewrite count_app
    | rewrite count_cons
    | rewrite count_waits_delay
    | rewrite count_waits_other by reflexivity
    | rewrite count_callbacks by reflexivity
    | rewrite count_handshake by (intros [] ; simpl; congruence) ];
  cbn.

(** The maintenance tick never touches the sampling timer, the sensor or the
    temperature channel. *)
Lemma handle_frame cfg i g :
  lastSampleTime (final (handleMQTTConnection cfg i g)) = lastSampleTime g /\
  count is_request (events (handleMQTTConnection cfg i g)) = 0%nat /\
  count (is_publish_on MQTT_TOPIC_TEMPERATURE)
    (events (handleMQTTConnection cfg i g)) = 0%nat.
Proof.
  handle_paths cfg i g; cbn [final events]; (split; [reflexivity|]);
    unfold link_init; split; count_events;
    try destruct (callbackSet g); try destruct (handshake i);
    count_events; reflexivity.
Qed.

Lemma publishTemperatureData_eq t g :
  publishTemperatureData t g = Returned tt g (publish_trace t).
Proof. reflexivity. Qed.

Lemma loop_Returned cfg i g g1 tr1 :
  handleMQTTConnection cfg (tick i) g = Returned tt g1 tr1 ->
  loop cfg i g
  = Returned tt
      (if sample_due i g1
       then set_lastSampleTime (millis (loop_clock i)) g1 else g1)
      (tr1 ++ sample_trace i g1 ++ [Delay 10]).
Proof.
  intros H. unfold loop. cbv zeta.
  rewrite (bind_Returned _ _ _ _ _ _ H), bind_get.
  unfold sample_trace, sample_due.
  destruct (SAMPLE_INTERVAL <=? _).
  - rewrite (bind_Returned _ _ g1 tt
               (set_lastSampleTime (millis (loop_clock i)) g1)
               ([RequestTemperatures; SerialPrint "Current temperature: ";
                 SerialPrintFloat (temp i); SerialPrintln " C"]
                ++ (if mqttConnected g1 then publish_trace (temp i) else []))).
    + reflexivity.
    + rewrite bind_modify, !bind_emit, bind_get.
      cbn [mqttConnected set_lastSampleTime].
      destruct (mqttConnected g1); reflexivity.
  - rewrite bind_ret. reflexivity.
Qed.

Lemma loop_Restarted cfg i g g1 tr1 :
  handleMQTTConnection cfg (tick i) g = Restarted g1 tr1 ->
  loop cfg i g = Restarted g1 tr1.
Proof.
  intros H. unfold loop. cbv zeta. now rewrite (bind_Restarted _ _ _ _ _ H).
Qed.

(** ** Restart discipline *)

Lemma well_stopped_prepend {A} tr (o : outcome A) :
  count is_restart tr = 0%nat -> well_stopped o -> well_stopped (prepend tr o).
Proof.
  intros Htr. destruct o as [a g t | g t]; simpl.
  - intros Ht. now rewrite count_app, Htr, Ht.
  - intros (t' & -> & Ht'). exists (tr ++ t'). split.
    + now rewrite app_assoc.
    + now rewrite count_app, Htr, Ht'.
Qed.

Lemma well_stopped_bind {A B} (c : prog A) (k : A -> prog B) g :
  well_stopped (c g) -> (forall a g1, well_stopped (k a g1)) ->
  well_stopped (bind c k g).
Proof.
  intros Hc Hk. destruct (c g) as [a g1 tr1 | g1 tr1] eqn:E.
  - rewrite (bind_Returned _ _ _ _ _ _ E).
    apply well_stopped_prepend; [exact Hc | apply Hk].
  - rewrite (bind_Restarted _ _ _ _ _ E). exact Hc.
Qed.

Lemma well_stopped_handle cfg i g :
  well_stopped (handleMQTTConnection cfg i g).
Proof.
  handle_paths cfg i g; cbn [well_stopped].
  - count_events. destruct (callbackSet g); count_events; reflexivity.
  - count_events. destruct (handshake i); count_events; reflexivity.
  - reflexivity.
  - unfold link_init. count_events. destruct (handshake i); reflexivity.
  - exists (SerialPrintln "WiFi disconnected!" :: link_init cfg ++ waits 11).
    split; [now rewrite <- app_comm_cons, <- app_assoc | reflexivity].
Qed.

Lemma well_stopped_loop cfg i g : well_stopped (loop cfg i g).
Proof.
  pose proof (well_stopped_handle cfg (tick i) g) as H.
  destruct (handleMQTTConnection cfg (tick i) g) as [[] g1 tr1 | g1 tr1] eqn:E.
  - rewrite (loop_Returned _ _ _ _ _ E). cbn [well_stopped] in *.
    rewrite !count_app, H. unfold sample_trace.
    destruct (sample_due i g1); [destruct (mqttConnected g1)|]; reflexivity.
  - now rewrite (loop_Restarted _ _ _ _ _ E).
Qed.

Lemma well_stopped_run cfg inputs : forall g, well_stopped (run cfg inputs g).
Proof.
  induction inputs as [|i rest IH]; intros g; [reflexivity|].
  simpl run. apply well_stopped_bind; [apply well_stopped_loop | auto].
Qed.

Lemma run_stops_at_restart cfg i rest g :
  returns (loop cfg i g) = false -> run cfg (i :: rest) g = loop cfg i g.
Proof.
  simpl run. destruct (loop cfg i g) as [a g1 tr | g1 tr] eqn:E;
    [discriminate|].
  intros _. apply (bind_Restarted _ _ _ _ _ E).
Qed.

Lemma connectToWiFi_bounded cfg status g :
  (count is_delay (events (connectToWiFi cfg status g)) <= 11)%nat.
Proof.
  destruct (connectToWiFi_cases cfg status g)
    as [(k & Hk & _ & _ & ->) | (_ & ->)]; cbn [events];
    unfold link_init; count_events; lia.
Qed.

(** ** [setup] *)

Lemma setup_cases cfg i g :
  (exists k, (k <= 10)%nat /\ boot_assoc i k = true /\
     setup cfg i g
     = Returned tt
         (set_mqttConnected (boot_handshake i) (set_callbackSet true g))
         (setup_banner i ++ link_init cfg ++ waits k
            ++ handshake_trace cfg (boot_handshake i) (boot_state_code i)
            ++ setup_footer))
  \/
  ((forall j, (j <= 10)%nat -> boot_assoc i j = false) /\
   setup cfg i g
   = Restarted g (setup_banner i ++ link_init cfg ++ waits 11 ++ [EspRestart])).
Proof.
  unfold setup. rewrite !bind_emit, !prepend_prepend.
  cbn [app]. fold (setup_banner i).
  destruct (connectToWiFi_cases cfg (boot_assoc i) g)
    as [(k & Hk & Hup & _ & Hrun) | (Hdown & Hrun)].
  - left. exists k. repeat split; auto.
    rewrite (bind_Returned _ _ _ _ _ _ Hrun).
    rewrite (bind_Returned _ _ g tt
               (set_mqttConnected (boot_handshake i) (set_callbackSet true g))
               (handshake_trace cfg (boot_handshake i) (boot_state_code i))).
    + rewrite !bind_emit, !prepend_prepend. cbn [prepend emit].
      now rewrite <- !app_assoc.
    + rewrite (bind_Returned _ _ _ _ _ _ (connectToMQTT_eq _ _ _ _)).
      unfold ret. cbn [prepend]. now rewrite app_nil_r.
  - right. split; auto.
    rewrite (bind_Restarted _ _ _ _ _ Hrun). cbn [prepend]. reflexivity.
Qed.

(** ** The link-connection routine *)

(** C9.  [connectToWiFi] never returns [false]: a call that returns, returns
    [true], leaves the globals alone, and the status test that ended its
    waiting loop (the one made after [k] rounds of waiting, [k <= 10])
    answered "connected"; a call that does not return ends in
    [ESP.restart()].  Hence [setup] never prints the message of its failure
    branch. *)
Theorem connectToWiFi_never_returns_false :
  forall cfg status g,
    match connectToWiFi cfg status g with
    | Returned b g' tr =>
        b = true /\ g' = g /\
        exists k, (k <= 10)%nat /\ status k = true /\
                  tr = link_init cfg ++ waits k
    | Restarted g' tr => exists tr', tr = tr' ++ [EspRestart]
    end
    /\ forall i,
         ~ In (SerialPrintln "WiFi connection failed. MQTT will be disabled.")
              (events (setup cfg i g)).
Proof.
  intros cfg status g. split.
  - destruct (connectToWiFi_cases cfg status g)
      as [(k & Hk & Hup & _ & ->) | (_ & ->)].
    + repeat split; auto. exists k. auto.
    + exists (link_init cfg ++ waits 11). now rewrite <- app_assoc.
  - intros i.
    apply (count_zero_not_In
             (is_note "WiFi connection failed. MQTT will be disabled."));
      [|reflexivity].
    destruct (setup_cases cfg i g) as [(k & _ & _ & ->) | (_ & ->)];
      cbn [events]; unfold setup_banner, link_init, handshake_trace.
    + count_events. destruct (boot_handshake i); reflexivity.
    + count_events. reflexivity.
Qed.

(** C5.  When the eleven status tests of one call of [connectToWiFi] (the
    countdown [trying] from 10 to 0) all fail, the call ends in
    [ESP.restart()]: one [WiFi.begin], eleven waits of one second, then the
    restart, once and last.  The wait is bounded whatever the access point
    does, and in every run of [loop] a restart is the last event of the run:
    no later iteration is executed. *)
Theorem restart_after_bounded_link_failures :
  forall cfg status g,
    (forall k, (k <= 10)%nat -> status k = false) ->
    connectToWiFi cfg status g
      = Restarted g (link_init cfg ++ waits 11 ++ [EspRestart])
    /\ count is_restart (events (connectToWiFi cfg status g)) = 1%nat
    /\ count is_wifi_begin (events (connectToWiFi cfg status g)) = 1%nat
    /\ (forall status' g',
          (count is_delay (events (connectToWiFi cfg status' g')) <= 11)%nat)
    /\ (forall inputs g', well_stopped (run cfg inputs g'))
    /\ (forall i rest g',
          returns (loop cfg i g') = false ->
          run cfg (i :: rest) g' = loop cfg i g').
Proof.
  intros cfg status g Hfail.
  assert (E : connectToWiFi cfg status g
              = Restarted g (link_init cfg ++ waits 11 ++ [EspRestart])).
  { destruct (connectToWiFi_cases cfg status g)
      as [(k & Hk & Hup & _ & _) | (_ & E)]; [|exact E].
    rewrite (Hfail k Hk) in Hup. discriminate. }
  rewrite E. repeat split.
  - intros status' g'. apply connectToWiFi_bounded.
  - intros inputs g'. apply well_stopped_run.
  - intros i rest g'. apply run_stops_at_restart.
Qed.

Lemma restart_after_bounded_link_failures_witness :
  (forall k, (k <= 10)%nat -> never_up k = false)
  /\ connectToWiFi demo_config never_up boot
     = Restarted boot (link_init demo_config ++ waits 11 ++ [EspRestart]).
Proof.
  split.
  - intros k _. reflexivity.
  - apply (restart_after_bounded_link_failures demo_config never_up boot).
    intros k _. reflexivity.
Defined.

(** ** The maintenance tick *)



(** The string [mqttCallback] builds is the payload, byte for byte. *)
Lemma collect_payload (rest : list ascii) : forall (seen : list ascii) acc,
  fold_left
    (fun (message : string) (i : nat) =>
       (message ++ String (nth i (seen ++ rest) zero) EmptyString)%string)
    (seq (List.length seen) (List.length rest)) acc
  = (acc ++ string_of_list_ascii rest)%string.
Proof.
  induction rest as [|c rest IH]; intros seen acc; simpl.
  - clear. induction acc; simpl; congruence.
  - rewrite app_nth2, Nat.sub_diag by lia. simpl nth.
    replace (seen ++ c :: rest)%list with ((seen ++ [c]) ++ rest)%list
      by now rewrite <- app_assoc.
    replace (S (List.length seen)) with (List.length (seen ++ [c]))
      by (rewrite length_app; simpl; lia).
    rewrite IH. clear. induction acc; simpl; congruence.
Qed.

Lemma callback_trace_eq m :
  callback_trace m
  = [SerialPrint "MQTT Message received ["; SerialPrint (msg_topic m);
     SerialPrint "]: ";
     SerialPrintln (string_of_list_ascii (msg_payload m))].
Proof.
  unfold callback_trace, mqttCallback. cbn [events bind emit].
  pose proof (collect_payload (msg_payload m) [] EmptyString) as H.
  simpl in H. cbn. now rewrite H.
Qed.

Lemma callbacks_console msgs e :
  In e (flat_map callback_trace msgs) -> is_console e = true.
Proof.
  induction msgs as [|m rest IH]; [simpl; tauto|].
  cbn [flat_map]. rewrite in_app_iff, callback_trace_eq.
  intros [[<- | [<- | [<- | [<- | []]]]] | H]; auto.
Qed.

Lemma handle_keeps_callback cfg i g :
  callbackSet g = true ->
  callbackSet (final (handleMQTTConnection cfg i g)) = true.
Proof. intros H. handle_paths cfg i g; cbn; auto. Qed.

Lemma loop_keeps_callback cfg i g :
  callbackSet g = true -> callbackSet (final (loop cfg i g)) = true.
Proof.
  intros H. pose proof (handle_keeps_callback cfg (tick i) g H) as Hh.
  destruct (handleMQTTConnection cfg (tick i) g) as [[] g1 tr1 | g1 tr1] eqn:E.
  - rewrite (loop_Returned _ _ _ _ _ E). cbn in *.
    now destruct (sample_due i g1).
  - now rewrite (loop_Restarted _ _ _ _ _ E).
Qed.

Lemma final_bind {A B} (c : prog A) (k : A -> prog B) g (P : globals -> Prop) :
  P (final (c g)) ->
  (forall a g1, P g1 -> P (final (k a g1))) ->
  P (final (bind c k g)).
Proof.
  intros Hc Hk. destruct (c g) as [a g1 tr1 | g1 tr1] eqn:E.
  - rewrite (bind_Returned _ _ _ _ _ _ E), final_prepend. auto.
  - now rewrite (bind_Restarted _ _ _ _ _ E).
Qed.

Lemma run_keeps_callback cfg inputs : forall g,
  callbackSet g = true -> callbackSet (final (run cfg inputs g)) = true.
Proof.
  induction inputs as [|i rest IH]; intros g H; [exact H|].
  simpl run.
  apply (final_bind _ _ _ (fun g => callbackSet g = true));
    [now apply loop_keeps_callback | intros _ g1; apply IH].
Qed.

Lemma pump_only_when_up cfg i g :
  In MqttLoop (events (handleMQTTConnection cfg i g)) ->
  link_up i = true /\ session_up i = true.
Proof.
  intros Hin. destruct (link_up i) eqn:Hl, (session_up i) eqn:Hs; auto;
    exfalso; revert Hin;
    apply (count_zero_not_In is_pump); try reflexivity.
  - destruct (Z.lt_ge_cases MQTT_RECONNECT_INTERVAL
                (ULong.sub (millis (clock i)) (lastReconnectAttempt g))) as [H|H].
    + rewrite (handle_reconnect cfg i g Hl Hs H). cbn [events].
      count_events. destruct (handshake i); reflexivity.
    + now rewrite (handle_rate_limited cfg i g Hl Hs H).
  - destruct (handle_link_down cfg i g Hl) as [(k & _ & _ & _ & ->) | (_ & ->)];
      cbn [events]; unfold link_init; count_events;
      try destruct (handshake i); reflexivity.
  - destruct (handle_link_down cfg i g Hl) as [(k & _ & _ & _ & ->) | (_ & ->)];
      cbn [events]; unfold link_init; count_events;
      try destruct (handshake i); reflexivity.
Qed.

(** C8.  On a tick with the link up and the client connected,
    [handleMQTTConnection] does one thing: it calls [mqttClient.loop()] once.
    With the callback registered (which [setup] does whenever it returns,
    and which no later code undoes), every message received by that call is
    passed, in order, to [mqttCallback], which writes the topic and the
    payload to the console and changes no global; the tick itself leaves
    the globals as they were and calls nothing else.  On any tick,
    [mqttClient.loop()] is called only if the link is up and the client is
    connected. *)
Theorem pump_when_session_up :
  forall cfg i g,
    link_up i = true ->
    session_up i = true ->
    callbackSet g = true ->
    handleMQTTConnection cfg i g
      = Returned tt g (MqttLoop :: flat_map callback_trace (inbox i))
    /\ (forall e, In e (flat_map callback_trace (inbox i)) ->
                  is_console e = true)
    /\ (forall m g',
          mqttCallback (msg_topic m) (msg_payload m)
            (List.length (msg_payload m)) g'
          = Returned tt g'
              [SerialPrint "MQTT Message received [";
               SerialPrint (msg_topic m); SerialPrint "]: ";
               SerialPrintln (string_of_list_ascii (msg_payload m))])
    /\ (forall i' g',
          In MqttLoop (events (handleMQTTConnection cfg i' g')) ->
          link_up i' = true /\ session_up i' = true)
    /\ (forall si g0,
          returns (setup cfg si g0) = true ->
          callbackSet (final (setup cfg si g0)) = true)
    /\ (forall inputs g',
          callbackSet g' = true ->
          callbackSet (final (run cfg inputs g')) = true).
Proof.
  intros cfg i g Hlink Hsess Hcb. repeat split.
  - rewrite (handle_session_up cfg i g Hlink Hsess), mqttClient_loop_eq.
    now rewrite Hcb.
  - apply callbacks_console.
  - intros m g'. rewrite mqttCallback_eq. fold (callback_trace m).
    now rewrite callback_trace_eq.
  - apply (pump_only_when_up cfg i' g' H).
  - apply (pump_only_when_up cfg i' g' H).
  - intros si g0.
    destruct (setup_cases cfg si g0) as [(k & _ & _ & ->) | (_ & ->)];
      [reflexivity | discriminate].
  - intros inputs g'. apply run_keeps_callback.
Qed.

Lemma pump_when_session_up_witness :
  link_up (steady_tick 20) = true
  /\ session_up (steady_tick 20) = true
  /\ callbackSet online = true
  /\ handleMQTTConnection demo_config (steady_tick 20) online
     = Returned tt online
         (MqttLoop :: flat_map callback_trace (inbox (steady_tick 20))).
Proof.
  split; [reflexivity | split; [reflexivity | split; [reflexivity|]]].
  apply (pump_when_session_up demo_config (steady_tick 20) online
           eq_refl eq_refl eq_refl).
Defined.

(** C2 fails as stated: on this tick the link is down at the test, comes up
    at the first status test of [connectToWiFi], and the tick goes on to a
    session handshake, publishes "online" and leaves [mqttConnected] set. *)
Lemma link_down_tick_still_handshakes :
  link_up (link_flap 6010) = false
  /\ In (MqttConnect (mqtt_server demo_config))
        (events (handleMQTTConnection demo_config (link_flap 6010) online))
  /\ In (MqttPublish MQTT_TOPIC_STATUS "online")
        (events (handleMQTTConnection demo_config (link_flap 6010) online))
  /\ mqttConnected
       (final (handleMQTTConnection demo_config (link_flap 6010) online))
     = true.
Proof. cbv. tauto. Qed.

(** C2, amended.  A tick that finds the link down clears [wifiConnected]
    and [mqttConnected], then calls [connectToWiFi] (one [WiFi.begin], at
    most eleven status tests).  If that ends in the restart, no handshake
    and no publish have been made and [mqttConnected] is clear.  If the link
    comes up, the tick makes one session handshake at once, without reading
    or writing [lastReconnectAttempt], and [mqttConnected] ends as the
    result of that handshake, with "online" published on success.  In
    neither case does the tick call [mqttClient.loop()] or publish on the
    temperature topic. *)
Theorem link_down_tick :
  forall cfg i g,
    link_up i = false ->
    count is_pump (events (handleMQTTConnection cfg i g)) = 0%nat
    /\ count (is_publish_on MQTT_TOPIC_TEMPERATURE)
         (events (handleMQTTConnection cfg i g)) = 0%nat
    /\ count is_wifi_begin (events (handleMQTTConnection cfg i g)) = 1%nat
    /\ wifiConnected (final (handleMQTTConnection cfg i g)) = false
    /\ lastReconnectAttempt (final (handleMQTTConnection cfg i g))
       = lastReconnectAttempt g
    /\ if returns (handleMQTTConnection cfg i g)
       then
         (exists k, (k <= 10)%nat /\ assoc i k = true)
         /\ count is_connect (events (handleMQTTConnection cfg i g)) = 1%nat
         /\ mqttConnected (final (handleMQTTConnection cfg i g)) = handshake i
         /\ count is_publish (events (handleMQTTConnection cfg i g))
            = (if handshake i then 1%nat else 0%nat)
       else
         (forall k, (k <= 10)%nat -> assoc i k = false)
         /\ count is_connect (events (handleMQTTConnection cfg i g)) = 0%nat
         /\ count is_publish (events (handleMQTTConnection cfg i g)) = 0%nat
         /\ mqttConnected (final (handleMQTTConnection cfg i g)) = false.
Proof.
  intros cfg i g Hlink.
  destruct (handle_link_down cfg i g Hlink)
    as [(k & Hk & Hup & _ & ->) | (Hdown & ->)];
    cbn [events final returns]; unfold link_init.
  - repeat split; try (exists k; now split); count_events;
      destruct (handshake i); reflexivity.
  - repeat split; auto; count_events; reflexivity.
Qed.

Lemma link_down_tick_witness :
  link_up (link_flap 6010) = false
  /\ count is_wifi_begin
       (events (handleMQTTConnection demo_config (link_flap 6010) online))
     = 1%nat.
Proof.
  split; [reflexivity|].
  apply (link_down_tick demo_config (link_flap 6010) online eq_refl).
Defined.

(** ** One iteration of [loop] *)

Arguments dtostrf : simpl never.

Lemma loop_cases cfg i g :
  (exists g1 tr1,
     handleMQTTConnection cfg (tick i) g = Returned tt g1 tr1 /\
     lastSampleTime g1 = lastSampleTime g /\
     count is_request tr1 = 0%nat /\
     count (is_publish_on MQTT_TOPIC_TEMPERATURE) tr1 = 0%nat /\
     loop cfg i g
     = Returned tt
         (if sample_due i g1
          then set_lastSampleTime (millis (loop_clock i)) g1 else g1)
         (tr1 ++ sample_trace i g1 ++ [Delay 10]))
  \/
  (exists g1 tr1,
     handleMQTTConnection cfg (tick i) g = Restarted g1 tr1 /\
     lastSampleTime g1 = lastSampleTime g /\
     count is_request tr1 = 0%nat /\
     count (is_publish_on MQTT_TOPIC_TEMPERATURE) tr1 = 0%nat /\
     loop cfg i g = Restarted g1 tr1).
Proof.
  pose proof (handle_frame cfg (tick i) g) as (H1 & H2 & H3).
  destruct (handleMQTTConnection cfg (tick i) g) as [[] g1 tr1 | g1 tr1] eqn:E;
    [left | right]; exists g1, tr1; repeat split; auto.
  - now apply loop_Returned.
  - now apply loop_Restarted.
Qed.

Lemma sample_due_frame i g1 g :
  lastSampleTime g1 = lastSampleTime g -> sample_due i g1 = sample_due i g.
Proof. unfold sample_due. now intros ->. Qed.

Lemma count_sample_request i g1 :
  count is_request (sample_trace i g1)
  = if sample_due i g1 then 1%nat else 0%nat.
Proof.
  unfold sample_trace, publish_trace.
  destruct (sample_due i g1); [destruct (mqttConnected g1)|]; reflexivity.
Qed.

Lemma count_sample_publish i g1 :
  count (is_publish_on MQTT_TOPIC_TEMPERATURE) (sample_trace i g1)
  = if sample_due i g1 && mqttConnected g1 then 1%nat else 0%nat.
Proof.
  unfold sample_trace, publish_trace.
  destruct (sample_due i g1); [destruct (mqttConnected g1)|]; reflexivity.
Qed.

(** Requests in one iteration, and the sampling timer after it. *)
Lemma loop_sampling cfg i g :
  count is_request (events (loop cfg i g))
  = (if returns (loop cfg i g) && sample_due i g then 1%nat else 0%nat)
  /\ lastSampleTime (final (loop cfg i g))
     = (if returns (loop cfg i g) && sample_due i g
        then millis (loop_clock i) else lastSampleTime g).
Proof.
  destruct (loop_cases cfg i g)
    as [(g1 & tr1 & _ & Hl & Hr & _ & ->) | (g1 & tr1 & _ & Hl & Hr & _ & ->)];
    cbn [events final returns andb].
  - rewrite !count_app, Hr, count_sample_request, (sample_due_frame i g1 g Hl).
    destruct (sample_due i g); cbn; auto.
  - auto.
Qed.

Lemma request_In_count (tr : list event) :
  In RequestTemperatures tr <-> count is_request tr <> 0%nat.
Proof.
  split.
  - intros H. now apply (In_count_pos is_request tr RequestTemperatures).
  - intros H. destruct (count_pos_In _ _ H) as (e & He & Hp).
    destruct e; try discriminate. exact He.
Qed.

(** ** Publication gate *)

(** C1 fails as stated: with the session up, an iteration that reads
    [DEVICE_DISCONNECTED_C] from the sensor publishes it. *)
Lemma disconnected_sentinel_is_published :
  In RequestTemperatures
     (events (loop demo_config
                (iteration 11000 (steady_tick 11000) DEVICE_DISCONNECTED_C)
                online))
  /\ temp (iteration 11000 (steady_tick 11000) DEVICE_DISCONNECTED_C)
     = DEVICE_DISCONNECTED_C
  /\ In (MqttPublish MQTT_TOPIC_TEMPERATURE "-127.0")
        (events (loop demo_config
                   (iteration 11000 (steady_tick 11000) DEVICE_DISCONNECTED_C)
                   online)).
Proof. vm_compute. tauto. Qed.

(** C1, amended.  In an iteration of [loop] that takes a sample, the reading
    is published on the temperature topic exactly when [mqttConnected] is
    set once the maintenance tick of that iteration is over, and then it is
    published once, formatted by [dtostrf], whatever its value: there is no
    validity test.  When [mqttConnected] is clear nothing is published on
    that topic, and in either case the globals after the iteration do not
    depend on the reading: nothing is kept for a later attempt. *)
Theorem publish_iff_flag_set :
  forall cfg i g,
    In RequestTemperatures (events (loop cfg i g)) ->
    returns (loop cfg i g) = true
    /\ count (is_publish_on MQTT_TOPIC_TEMPERATURE) (events (loop cfg i g))
       = (if mqttConnected (final (loop cfg i g)) then 1%nat else 0%nat)
    /\ (mqttConnected (final (loop cfg i g)) = true ->
        In (MqttPublish MQTT_TOPIC_TEMPERATURE (dtostrf (temp i) 6 1))
           (events (loop cfg i g)))
    /\ (forall t, final (loop cfg (with_temp t i) g) = final (loop cfg i g)).
Proof.
  intros cfg i g Hreq. apply request_In_count in Hreq.
  destruct (loop_cases cfg i g)
    as [(g1 & tr1 & E & Hl & Hr & Hp & Hloop)
       | (g1 & tr1 & E & Hl & Hr & Hp & Hloop)];
    rewrite Hloop in *; cbn [events final returns] in *.
  - rewrite !count_app, Hr, count_sample_request in Hreq.
    destruct (sample_due i g1) eqn:Hdue; [|cbn in Hreq; congruence].
    cbn [mqttConnected set_lastSampleTime]. repeat split.
    + rewrite !count_app, Hp, count_sample_publish, Hdue.
      destruct (mqttConnected g1); reflexivity.
    + intros Hc. apply in_or_app. right. apply in_or_app. left.
      unfold sample_trace, publish_trace. rewrite Hdue, Hc. cbn. tauto.
    + intros t. rewrite (loop_Returned cfg (with_temp t i) g g1 tr1 E).
      cbn [final]. unfold sample_due in *. cbn [with_temp loop_clock].
      now rewrite Hdue.
  - congruence.
Qed.

Lemma publish_iff_flag_set_witness :
  In RequestTemperatures
     (events (loop demo_config
                (iteration 11000 (steady_tick 11000) (2347 # 100)) online))
  /\ count (is_publish_on MQTT_TOPIC_TEMPERATURE)
       (events (loop demo_config
                  (iteration 11000 (steady_tick 11000) (2347 # 100)) online))
     = 1%nat.
Proof.
  assert (H : In RequestTemperatures
                (events (loop demo_config
                           (iteration 11000 (steady_tick 11000) (2347 # 100))
                           online)))
    by (vm_compute; tauto).
  split; [exact H|].
  apply (publish_iff_flag_set demo_config
           (iteration 11000 (steady_tick 11000) (2347 # 100)) online H).
Defined.

(** ** Sampling scheduler *)

(** C3 fails as stated: with [lastSampleTime] initially 0, the iteration at
    time 0 takes no sample, since 0 - 0 < [SAMPLE_INTERVAL]. *)
Lemma no_sample_at_time_zero :
  lastSampleTime online = 0
  /\ ULong.sub (millis 0) (lastSampleTime online) < SAMPLE_INTERVAL
  /\ ~ In RequestTemperatures
        (events (loop demo_config (iteration 0 (steady_tick 0) (2347 # 100))
                   online)).
Proof.
  split; [reflexivity | split; [reflexivity|]].
  apply (count_zero_not_In is_request); reflexivity.
Qed.

(** C3, amended.  An iteration of [loop] that is not cut short by a restart
    asks the sensor for a sample exactly when
    [currentTime - lastSampleTime >= SAMPLE_INTERVAL] in 32-bit wrap-around
    arithmetic, once, and then sets [lastSampleTime] to [currentTime];
    otherwise it leaves [lastSampleTime] alone.  So after a sample at time
    [t], however late, the next sample needs a further full interval
    counted from [t].  With [lastSampleTime] 0 and iterations at times 0,
    4000 and 11000, only the one at 11000 takes a sample. *)
Theorem sampling_schedule :
  forall cfg,
    (forall i g,
       count is_request (events (loop cfg i g))
       = (if returns (loop cfg i g)
             && (SAMPLE_INTERVAL
                 <=? ULong.sub (millis (loop_clock i)) (lastSampleTime g))
          then 1%nat else 0%nat)
       /\ lastSampleTime (final (loop cfg i g))
          = (if returns (loop cfg i g)
                && (SAMPLE_INTERVAL
                    <=? ULong.sub (millis (loop_clock i)) (lastSampleTime g))
             then millis (loop_clock i) else lastSampleTime g))
    /\ (forall i j g,
          In RequestTemperatures (events (loop cfg i g)) ->
          ULong.sub (millis (loop_clock j)) (millis (loop_clock i))
            < SAMPLE_INTERVAL ->
          ~ In RequestTemperatures
              (events (loop cfg j (final (loop cfg i g)))))
    /\ (forall i0 i1 i2 g,
          lastSampleTime g = 0 ->
          loop_clock i0 = 0 -> loop_clock i1 = 4000 -> loop_clock i2 = 11000 ->
          returns (loop cfg i0 g) = true ->
          returns (loop cfg i1 (final (loop cfg i0 g))) = true ->
          returns (loop cfg i2 (final (loop cfg i1 (final (loop cfg i0 g)))))
            = true ->
          count is_request (events (loop cfg i0 g)) = 0%nat
          /\ count is_request
               (events (loop cfg i1 (final (loop cfg i0 g)))) = 0%nat
          /\ count is_request
               (events (loop cfg i2 (final (loop cfg i1 (final (loop cfg i0 g))))))
             = 1%nat).
Proof.
  intros cfg. split; [|split].
  - intros i g. apply loop_sampling.
  - intros i j g Hreq Hsoon. apply request_In_count in Hreq.
    destruct (loop_sampling cfg i g) as (Hc & Hl).
    destruct (returns (loop cfg i g) && sample_due i g); [|congruence].
    rewrite request_In_count.
    destruct (loop_sampling cfg j (final (loop cfg i g))) as (Hc' & _).
    rewrite Hc'. unfold sample_due. rewrite Hl.
    apply Z.leb_gt in Hsoon. rewrite Hsoon, andb_false_r. auto.
  - intros i0 i1 i2 g H0 C0 C1 C2 R0 R1 R2.
    destruct (loop_sampling cfg i0 g) as (Hc0 & Hl0).
    rewrite R0 in Hc0, Hl0. unfold sample_due in Hc0, Hl0.
    rewrite H0, C0 in Hc0, Hl0. cbn in Hc0, Hl0.
    destruct (loop_sampling cfg i1 (final (loop cfg i0 g))) as (Hc1 & Hl1).
    rewrite R1 in Hc1, Hl1. unfold sample_due in Hc1, Hl1.
    rewrite Hl0, C1 in Hc1, Hl1. cbn in Hc1, Hl1.
    destruct (loop_sampling cfg i2 (final (loop cfg i1 (final (loop cfg i0 g)))))
      as (Hc2 & _).
    rewrite R2 in Hc2. unfold sample_due in Hc2.
    rewrite Hl1, C2 in Hc2. cbn in Hc2. auto.
Qed.

Lemma sampling_schedule_witness :
  lastSampleTime online = 0
  /\ returns (loop demo_config (iteration 0 (steady_tick 0) (2347 # 100))
                online) = true
  /\ count is_request
       (events
          (loop demo_config (iteration 11000 (steady_tick 11000) (2347 # 100))
             (final
                (loop demo_config
                   (iteration 4000 (steady_tick 4000) (2347 # 100))
                   (final
                      (loop demo_config
                         (iteration 0 (steady_tick 0) (2347 # 100))
                         online))))))
     = 1%nat.
Proof.
  split; [reflexivity | split; [reflexivity|]].
  apply (proj2 (proj2 (sampling_schedule demo_config))
           (iteration 0 (steady_tick 0) (2347 # 100))
           (iteration 4000 (steady_tick 4000) (2347 # 100))
           (iteration 11000 (steady_tick 11000) (2347 # 100))
           online); reflexivity.
Defined.

(** ** Clock overflow *)

Lemma elapsed_across_overflow t0 t1 :
  0 <= t1 - t0 < ULong.modulus ->
  ULong.sub (millis t1) (millis t0) = t1 - t0.
Proof.
  intros H. unfold ULong.sub, millis, ULong.wrap.
  rewrite <- Zminus_mod. now apply Z.mod_small.
Qed.

(** C10.  Take two clock readings made at true times [t0 <= t1] less than
    2^32 ms apart, whatever the number of overflows of [millis()] before or
    between them.  The wrap-around difference the sketch computes from the
    two readings is the true elapsed time [t1 - t0]; so an iteration of
    [loop] takes a sample exactly when [t1 - t0 >= SAMPLE_INTERVAL] has
    really elapsed since the last sample, and a tick with the link up and
    the client not connected makes a handshake exactly when
    [t1 - t0 > MQTT_RECONNECT_INTERVAL] has really elapsed since the last
    stamped attempt. *)
Theorem timers_survive_overflow :
  forall cfg t0 t1,
    0 <= t1 - t0 < ULong.modulus ->
    ULong.sub (millis t1) (millis t0) = t1 - t0
    /\ (forall i g,
          loop_clock i = t1 ->
          lastSampleTime g = millis t0 ->
          returns (loop cfg i g) = true ->
          (In RequestTemperatures (events (loop cfg i g))
           <-> SAMPLE_INTERVAL <= t1 - t0))
    /\ (forall i g,
          clock i = t1 ->
          lastReconnectAttempt g = millis t0 ->
          link_up i = true ->
          session_up i = false ->
          (In (MqttConnect (mqtt_server cfg))
              (events (handleMQTTConnection cfg i g))
           <-> MQTT_RECONNECT_INTERVAL < t1 - t0)).
Proof.
  intros cfg t0 t1 Hgap.
  pose proof (elapsed_across_overflow t0 t1 Hgap) as Hsub.
  split; [exact Hsub | split].
  - intros i g Hc Hl Hret.
    destruct (loop_sampling cfg i g) as (Hcount & _).
    rewrite Hret in Hcount. unfold sample_due in Hcount.
    rewrite Hc, Hl, Hsub in Hcount. cbn [andb] in Hcount.
    rewrite request_In_count, Hcount.
    destruct (Z.leb_spec SAMPLE_INTERVAL (t1 - t0)); split; intros; try lia;
      congruence.
  - intros i g Hc Hl Hlink Hsess.
    destruct (Z.lt_ge_cases MQTT_RECONNECT_INTERVAL (t1 - t0)) as [Hdue | Hwait].
    + split; [intros _; exact Hdue | intros _].
      rewrite (handle_reconnect cfg i g Hlink Hsess)
        by (rewrite Hc, Hl, Hsub; exact Hdue).
      cbn [events]. unfold handshake_trace. cbn. tauto.
    + split; [|lia]. intros Hin. exfalso. revert Hin.
      rewrite (handle_rate_limited cfg i g Hlink Hsess)
        by (rewrite Hc, Hl, Hsub; exact Hwait).
      cbn [events]. tauto.
Qed.

Lemma timers_survive_overflow_witness :
  0 <= (ULong.modulus + 8000) - (ULong.modulus - 3000) < ULong.modulus
  /\ ULong.sub (millis (ULong.modulus + 8000)) (millis (ULong.modulus - 3000))
     = (ULong.modulus + 8000) - (ULong.modulus - 3000).
Proof.
  assert (H : 0 <= (ULong.modulus + 8000) - (ULong.modulus - 3000)
              < ULong.modulus) by (vm_compute; split; congruence).
  split; [exact H|].
  apply (timers_survive_overflow demo_config (ULong.modulus - 3000)
           (ULong.modulus + 8000) H).
Defined.

(** ** Spacing of reconnection attempts *)

Lemma handle_stamp cfg i g :
  (link_up i = true ->
   count is_connect (events (handleMQTTConnection cfg i g)) <> 0%nat ->
   returns (handleMQTTConnection cfg i g) = true
   /\ lastReconnectAttempt (final (handleMQTTConnection cfg i g))
      = millis (clock i)
   /\ MQTT_RECONNECT_INTERVAL
      < ULong.sub (millis (clock i)) (lastReconnectAttempt g))
  /\ (link_up i
      && negb (Nat.eqb (count is_connect
                          (events (handleMQTTConnection cfg i g))) 0) = false ->
      lastReconnectAttempt (final (handleMQTTConnection cfg i g))
      = lastReconnectAttempt g).
Proof.
  handle_paths cfg i g; cbn [events final returns andb]; split;
    try (intros; discriminate); try (intros; reflexivity); auto.
  - intros _ H. exfalso. apply H.
    destruct (callbackSet g); count_events; reflexivity.
  - intros _ H. exfalso. now apply H.
Qed.

Lemma count_sample_connect i g1 : count is_connect (sample_trace i g1) = 0%nat.
Proof.
  unfold sample_trace, publish_trace.
  destruct (sample_due i g1); [destruct (mqttConnected g1)|]; reflexivity.
Qed.

Lemma loop_stamp cfg i g :
  (timed_handshake cfg i g = true ->
   returns (loop cfg i g) = true
   /\ lastReconnectAttempt (final (loop cfg i g)) = millis (clock (tick i))
   /\ MQTT_RECONNECT_INTERVAL
      < ULong.sub (millis (clock (tick i))) (lastReconnectAttempt g))
  /\ (timed_handshake cfg i g = false ->
      lastReconnectAttempt (final (loop cfg i g)) = lastReconnectAttempt g).
Proof.
  unfold timed_handshake.
  pose proof (handle_stamp cfg (tick i) g) as (Hyes & Hno).
  destruct (loop_cases cfg i g)
    as [(g1 & tr1 & E & _ & _ & _ & ->) | (g1 & tr1 & E & _ & _ & _ & ->)];
    rewrite E in *; cbn [events final returns] in *.
  - rewrite !count_app, count_sample_connect. cbn [count filter List.length is_connect].
    rewrite !Nat.add_0_r.
    assert (Hfin : forall b : bool,
              lastReconnectAttempt
                (if b then set_lastSampleTime (millis (loop_clock i)) g1 else g1)
              = lastReconnectAttempt g1) by (intros []; reflexivity).
    rewrite Hfin. split.
    + intros H. apply andb_prop in H. destruct H as (Hl & Hc).
      apply negb_true_iff, Nat.eqb_neq in Hc.
      destruct (Hyes Hl Hc) as (_ & H2 & H3). auto.
    + exact Hno.
  - split; [|exact Hno].
    intros H. apply andb_prop in H. destruct H as (Hl & Hc).
    apply negb_true_iff, Nat.eqb_neq in Hc.
    destruct (Hyes Hl Hc) as (H1 & _). discriminate.
Qed.

Lemma final_run_cons cfg i rest g :
  returns (loop cfg i g) = true ->
  final (run cfg (i :: rest) g) = final (run cfg rest (final (loop cfg i g))).
Proof.
  simpl run. destruct (loop cfg i g) as [[] g1 tr | g1 tr] eqn:E;
    [|discriminate].
  intros _. now rewrite (bind_Returned _ _ _ _ _ _ E), final_prepend.
Qed.

Lemma quiet_keeps_stamp cfg inputs : forall g,
  quiet cfg inputs g ->
  lastReconnectAttempt (final (run cfg inputs g)) = lastReconnectAttempt g.
Proof.
  induction inputs as [|i rest IH]; intros g; [reflexivity|].
  intros (Hq & Hret & Hrest).
  rewrite (final_run_cons cfg i rest g Hret), (IH _ Hrest).
  now apply (proj2 (loop_stamp cfg i g)).
Qed.

Lemma wrapped_gap_le t0 t1 :
  t0 <= t1 -> ULong.sub (millis t1) (millis t0) <= t1 - t0.
Proof.
  intros H. unfold ULong.sub, millis, ULong.wrap. rewrite <- Zminus_mod.
  apply Z.mod_le; [lia | reflexivity].
Qed.

(** C4 fails as stated.  At time 6000 a tick with the link up makes a
    handshake, which fails; ten milliseconds later the next tick finds the
    link down, re-associates at once and makes another handshake: two
    session attempts 10 ms apart.  At time 6020 the link is found down
    again, and [WiFi.begin] is called again: two link attempts 10 ms
    apart. *)
Lemma handshakes_ten_ms_apart :
  count is_connect
    (events (loop demo_config
               (iteration 6000 (reconnect_tick 6000 false) (2347 # 100)) boot))
  = 1%nat
  /\ count is_connect
       (events (loop demo_config
                  (iteration 6010 (link_flap 6010) (2347 # 100))
                  (final (loop demo_config
                            (iteration 6000 (reconnect_tick 6000 false)
                               (2347 # 100)) boot))))
     = 1%nat
  /\ 6010 - 6000 < MQTT_RECONNECT_INTERVAL
  /\ count is_wifi_begin
       (events (loop demo_config
                  (iteration 6010 (link_flap 6010) (2347 # 100))
                  (final (loop demo_config
                            (iteration 6000 (reconnect_tick 6000 false)
                               (2347 # 100)) boot))))
     = 1%nat
  /\ count is_wifi_begin
       (events (loop demo_config
                  (iteration 6020 (link_flap 6020) (2347 # 100))
                  (final (loop demo_config
                     (iteration 6010 (link_flap 6010) (2347 # 100))
                     (final (loop demo_config
                               (iteration 6000 (reconnect_tick 6000 false)
                                  (2347 # 100)) boot))))))
     = 1%nat.
Proof. vm_compute. repeat split. Qed.

(** C4, amended.  Session handshakes made on ticks that find the link up
    are rate-limited: if an iteration makes such a handshake at time [t],
    and after any number of iterations without one the iteration at time
    [t'] makes the next, then [t' - t > MQTT_RECONNECT_INTERVAL] in 32-bit
    wrap-around arithmetic, hence also in true time when [t <= t'].  (The
    handshake that follows a link re-association is made at once and does
    not stamp [lastReconnectAttempt]; link re-association has no interval
    of its own.) *)
Theorem timed_handshakes_spaced :
  forall cfg i mid j g,
    timed_handshake cfg i g = true ->
    quiet cfg mid (final (loop cfg i g)) ->
    timed_handshake cfg j (final (run cfg mid (final (loop cfg i g)))) = true ->
    MQTT_RECONNECT_INTERVAL
      < ULong.sub (millis (clock (tick j))) (millis (clock (tick i)))
    /\ (clock (tick i) <= clock (tick j) ->
        MQTT_RECONNECT_INTERVAL < clock (tick j) - clock (tick i)).
Proof.
  intros cfg i mid j g Hi Hmid Hj.
  destruct (proj1 (loop_stamp cfg i g) Hi) as (_ & Hstamp & _).
  pose proof (quiet_keeps_stamp cfg mid _ Hmid) as Hkeep.
  destruct (proj1 (loop_stamp cfg j _) Hj) as (_ & _ & Hgap).
  rewrite Hkeep, Hstamp in Hgap. split; [exact Hgap|].
  intros Hord. pose proof (wrapped_gap_le _ _ Hord). lia.
Qed.

Lemma timed_handshakes_spaced_witness :
  timed_handshake demo_config
    (iteration 6000 (reconnect_tick 6000 false) (2347 # 100)) boot = true
  /\ quiet demo_config [iteration 6010 (link_flap 6010) (2347 # 100)]
       (final (loop demo_config
                 (iteration 6000 (reconnect_tick 6000 false) (2347 # 100))
                 boot))
  /\ timed_handshake demo_config
       (iteration 11500 (reconnect_tick 11500 true) (2347 # 100))
       (final (run demo_config [iteration 6010 (link_flap 6010) (2347 # 100)]
                 (final (loop demo_config
                           (iteration 6000 (reconnect_tick 6000 false)
                              (2347 # 100)) boot)))) = true
  /\ MQTT_RECONNECT_INTERVAL
     < ULong.sub (millis 11500) (millis 6000).
Proof.
  assert (Hq : quiet demo_config
                 [iteration 6010 (link_flap 6010) (2347 # 100)]
                 (final (loop demo_config
                           (iteration 6000 (reconnect_tick 6000 false)
                              (2347 # 100)) boot)))
    by (vm_compute; repeat split).
  split; [reflexivity | split; [exact Hq | split; [reflexivity|]]].
  exact (proj1 (timed_handshakes_spaced demo_config
                  (iteration 6000 (reconnect_tick 6000 false) (2347 # 100))
                  [iteration 6010 (link_flap 6010) (2347 # 100)]
                  (iteration 11500 (reconnect_tick 11500 true) (2347 # 100))
                  boot eq_refl Hq eq_refl)).
Defined.

(** ** The temperature payload *)

Lemma all_digits_of_uint d : all_digits (NilEmpty.string_of_uint d) = true.
Proof. induction d; simpl; auto. Qed.

Lemma decimal_shape n :
  exists c r, decimal n = String c r /\ is_digit c = true
              /\ all_digits r = true.
Proof.
  unfold decimal, NilZero.string_of_uint.
  pose proof (all_digits_of_uint (N.to_uint (Z.to_N n))) as H.
  destruct (N.to_uint (Z.to_N n)); simpl in *;
    eexists _, _; (split; [reflexivity | split; [reflexivity | exact H]]).
Qed.

Lemma parse_decimal n :
  0 <= n -> NilZero.uint_of_string (decimal n) = Some (N.to_uint (Z.to_N n)).
Proof.
  intros _. unfold decimal. apply NilZero.usu.
  destruct (Z.to_N n) as [|p]; simpl; [discriminate|].
  apply Unsigned.to_uint_nonnil.
Qed.

Lemma skip_blanks_blanks n s : skip_blanks (blanks n ++ s) = skip_blanks s.
Proof. induction n; simpl; auto. Qed.

Lemma split_point_digits ds rest :
  all_digits ds = true ->
  split_point (ds ++ String "." rest) = (ds, Some rest).
Proof.
  induction ds as [|c ds IH]; simpl; [reflexivity|].
  intros H. apply andb_prop in H. destruct H as (Hc & Hds).
  destruct (Ascii.eqb_spec c ".") as [-> | _]; [discriminate|].
  now rewrite (IH Hds).
Qed.

Lemma parse_digit d :
  0 <= d < 10 ->
  NilEmpty.uint_of_string (String (digit_char d) EmptyString)
  = Some (N.to_uint (Z.to_N d))
  /\ is_digit (digit_char d) = true.
Proof.
  intros H.
  assert (C : d = 0 \/ d = 1 \/ d = 2 \/ d = 3 \/ d = 4 \/ d = 5 \/ d = 6
              \/ d = 7 \/ d = 8 \/ d = 9) by lia.
  repeat (destruct C as [-> | C]; [split; reflexivity|]). subst. split; reflexivity.
Qed.

Lemma tenths_nonneg t : 0 <= Qfloor (Qabs t * inject_Z 10 + (1 # 2)).
Proof.
  change 0 with (Qfloor 0). apply Qfloor_resp_le.
  pose proof (Qabs_nonneg t) as H.
  apply Qle_trans with (Qabs t * inject_Z 10)%Q.
  - apply Qmult_le_0_compat; [exact H | discriminate].
  - rewrite <- (Qplus_0_r (Qabs t * inject_Z 10)) at 1.
    apply Qplus_le_r. discriminate.
Qed.

(** The payload: blanks, an optional sign, integer digits, a point and one
    digit. *)
Lemma dtostrf_one_digit t width :
  let tenths := Qfloor (Qabs t * inject_Z 10 + (1 # 2)) in
  exists pad,
    dtostrf t width 1
    = (blanks pad
       ++ (if Qle_bool 0 t then "" else "-")
       ++ decimal (tenths / 10)
       ++ String "." (String (digit_char (tenths mod 10)) EmptyString))%string.
Proof.
  intros tenths. unfold dtostrf. cbn [Z.of_nat Pos.of_succ_nat].
  change (10 ^ 1) with 10. fold tenths.
  cbn [frac_digits]. cbn [append].
  rewrite Z.mod_mod by lia.
  destruct (Qle_bool 0 t); eexists; reflexivity.
Qed.

Lemma parse_unsigned_tenths n :
  0 <= n ->
  parse_unsigned
    (decimal (n / 10) ++ String "." (String (digit_char (n mod 10)) EmptyString))
  = Some (Qmake n 10).
Proof.
  intros Hn. unfold parse_unsigned.
  destruct (decimal_shape (n / 10)) as (c & r & E & Hc & Hr).
  rewrite split_point_digits by (rewrite E; simpl; now rewrite Hc, Hr).
  rewrite parse_decimal by (apply Z.div_pos; lia).
  destruct (parse_digit (n mod 10)) as (-> & _);
    [apply Z.mod_pos_bound; lia|].
  rewrite !DecimalN.Unsigned.of_to, !Z2N.id
    by (try apply Z.div_pos; try apply Z.mod_pos_bound; lia).
  cbn [String.length Z.of_nat Pos.of_succ_nat].
  change (10 ^ 1) with 10. change (Z.to_pos 10) with 10%positive.
  f_equal. f_equal. pose proof (Z.div_mod n 10). lia.
Qed.

Lemma parse_fixed_dtostrf t width :
  parse_fixed (dtostrf t width 1) = Some (round_tenths t).
Proof.
  destruct (dtostrf_one_digit t width) as (pad & ->).
  unfold parse_fixed, round_tenths. rewrite skip_blanks_blanks.
  pose proof (tenths_nonneg t) as Hn.
  set (n := Qfloor (Qabs t * inject_Z 10 + (1 # 2))) in *.
  destruct (Qle_bool 0 t).
  - cbn [append].
    destruct (decimal_shape (n / 10)) as (c & r & E & Hc & Hr).
    assert (Hskip : skip_blanks
              (decimal (n / 10)
               ++ String "." (String (digit_char (n mod 10)) EmptyString))
            = String c (r ++ String "." (String (digit_char (n mod 10)) EmptyString))).
    { rewrite E. simpl. destruct (Ascii.eqb_spec c " ") as [-> | _];
        [discriminate | reflexivity]. }
    rewrite Hskip.
    destruct (Ascii.eqb_spec c "-") as [-> | _]; [discriminate|].
    change (String c (r ++ ?x))%string with (String c r ++ x)%string.
    rewrite <- E. now apply parse_unsigned_tenths.
  - cbn [append skip_blanks]. cbn.
    rewrite parse_unsigned_tenths by exact Hn. reflexivity.
Qed.

Lemma tenths_as_product (n : Z) : (n # 10 == inject_Z n * (1 # 10))%Q.
Proof. unfold Qeq, inject_Z. simpl. lia. Qed.

(** A nearest tenth is within half a tenth of the reading; at an exact tie
    both neighbours are. *)
Lemma round_tenths_close t : (Qabs (round_tenths t - t) <= 1 # 20)%Q.
Proof.
  unfold round_tenths.
  pose proof (Qfloor_le (Qabs t * inject_Z 10 + (1 # 2))) as Hlo.
  pose proof (Qlt_floor (Qabs t * inject_Z 10 + (1 # 2))) as Hhi.
  set (n := Qfloor (Qabs t * inject_Z 10 + (1 # 2))) in *.
  rewrite inject_Z_plus in Hhi.
  change (inject_Z 10) with (10 # 1)%Q in *.
  change (inject_Z 1) with 1%Q in *.
  apply Qabs_Qle_condition.
  destruct (Qle_bool 0 t) eqn:S.
  - apply Qle_bool_iff in S. pose proof (Qabs_pos t S) as A.
    rewrite A in Hlo, Hhi. rewrite tenths_as_product. split; lra.
  - assert (S' : (t <= 0)%Q).
    { apply Qnot_lt_le. intros H. apply Qlt_le_weak in H.
      apply Qle_bool_iff in H. congruence. }
    pose proof (Qabs_neg t S') as A. rewrite A in Hlo, Hhi.
    rewrite tenths_as_product, inject_Z_opp. split; lra.
Qed.

Lemma length_blanks_append n s :
  String.length (blanks n ++ s) = (n + String.length s)%nat.
Proof. induction n; simpl; auto. Qed.

Lemma dtostrf_width t width prec :
  width <= Z.of_nat (String.length (dtostrf t width prec)).
Proof. unfold dtostrf. rewrite length_blanks_append. lia. Qed.

(** C7 fails as stated: the reading 23.47 is not carried as "23.5" but as
    "  23.5", since [dtostrf] pads the number to the width 6 it is given. *)
Lemma payload_is_padded :
  dtostrf (2347 # 100) 6 1 = "  23.5"%string
  /\ events (publishTemperatureData (2347 # 100) online)
     = [MqttPublish MQTT_TOPIC_TEMPERATURE "  23.5";
        SerialPrint "Published to MQTT: "; SerialPrint "  23.5";
        SerialPrintln " C"]
  /\ "  23.5"%string <> "23.5"%string.
Proof. repeat split. discriminate. Qed.

(** C7, amended.  [publishTemperatureData] publishes once, on the
    temperature topic, the reading formatted by [dtostrf] with width 6 and
    one decimal: blanks up to a length of at least 6, a minus sign for a
    negative reading, the integer digits, a point and exactly one
    fractional digit.  Read back with leading blanks skipped, the payload
    is a number with one decimal within 0.05 of the reading, that is, one
    of the tenths nearest to it (which of the two, for a reading exactly
    half-way between them, is not stated); 23.47 is carried as "  23.5" and
    reads back as 23.5. *)
Theorem temperature_payload :
  forall t g,
    publishTemperatureData t g
      = Returned tt g
          [MqttPublish MQTT_TOPIC_TEMPERATURE (dtostrf t 6 1);
           SerialPrint "Published to MQTT: "; SerialPrint (dtostrf t 6 1);
           SerialPrintln " C"]
    /\ (exists pad whole d,
          dtostrf t 6 1
          = (blanks pad ++ (if Qle_bool 0 t then "" else "-") ++ whole
             ++ String "." (String d EmptyString))%string
          /\ whole <> EmptyString
          /\ all_digits whole = true
          /\ is_digit d = true)
    /\ (6 <= String.length (dtostrf t 6 1))%nat
    /\ (exists q,
          parse_fixed (dtostrf t 6 1) = Some q
          /\ (Qabs (q - t) <= 1 # 20)%Q)
    /\ dtostrf (2347 # 100) 6 1 = "  23.5"%string
    /\ parse_fixed (dtostrf (2347 # 100) 6 1) = Some (235 # 10).
Proof.
  intros t g. split; [reflexivity | split; [|split; [|split]]].
  - destruct (dtostrf_one_digit t 6) as (pad & E).
    set (n := Qfloor (Qabs t * inject_Z 10 + (1 # 2))) in *.
    destruct (decimal_shape (n / 10)) as (c & r & Ed & Hc & Hr).
    exists pad, (decimal (n / 10)), (digit_char (n mod 10)).
    split; [exact E | split; [|split]].
    + rewrite Ed. discriminate.
    + rewrite Ed. simpl. now rewrite Hc, Hr.
    + apply parse_digit. apply Z.mod_pos_bound. lia.
  - pose proof (dtostrf_width t 6 1). lia.
  - exists (round_tenths t). split.
    + apply parse_fixed_dtostrf.
    + apply round_tenths_close.
  - split; [reflexivity|]. now rewrite parse_fixed_dtostrf.
Qed.

(** * Further properties of the sketch *)

(** ** What makes a run stop *)

Lemma link_fatal_spec t :
  link_fatal t = true
  <-> link_up t = false /\ forall k, (k <= 10)%nat -> assoc t k = false.
Proof.
  unfold link_fatal. rewrite andb_true_iff, negb_true_iff, forallb_forall.
  split; intros (Hl & Ha); split; auto.
  - intros k Hk. apply negb_true_iff. apply Ha. apply in_seq. lia.
  - intros k Hk. apply in_seq in Hk. apply negb_true_iff. apply Ha. lia.
Qed.

Lemma handle_returns cfg i g :
  returns (handleMQTTConnection cfg i g) = negb (link_fatal i).
Proof.
  destruct (link_fatal i) eqn:F.
  - apply link_fatal_spec in F. destruct F as (Hl & Ha).
    destruct (handle_link_down cfg i g Hl)
      as [(k & Hk & Hup & _ & _) | (_ & ->)]; [|reflexivity].
    rewrite (Ha k Hk) in Hup. discriminate.
  - handle_paths cfg i g; try reflexivity.
    assert (link_fatal i = true) by (apply link_fatal_spec; auto).
    congruence.
Qed.

Lemma loop_returns cfg i g :
  returns (loop cfg i g) = negb (link_fatal (tick i)).
Proof.
  rewrite <- (handle_returns cfg (tick i) g).
  destruct (loop_cases cfg i g)
    as [(g1 & tr1 & -> & _ & _ & _ & ->) | (g1 & tr1 & -> & _ & _ & _ & ->)];
    reflexivity.
Qed.

Lemma run_cons cfg i rest g :
  run cfg (i :: rest) g
  = match loop cfg i g with
    | Returned _ g1 tr1 => prepend tr1 (run cfg rest g1)
    | Restarted g1 tr1 => Restarted g1 tr1
    end.
Proof.
  simpl run. destruct (loop cfg i g) as [[] g1 tr1 | g1 tr1] eqn:E.
  - now rewrite (bind_Returned _ _ _ _ _ _ E).
  - now rewrite (bind_Restarted _ _ _ _ _ E).
Qed.

(** X1.  The only thing that cuts a run short is a tick that finds the link
    down and sees all eleven status tests of [connectToWiFi] fail: an
    iteration of [loop] returns unless its tick is such a tick, whatever the
    globals, and a run of [loop] returns unless one of its iterations has
    such a tick. *)
Theorem restart_only_on_fatal_link :
  forall cfg inputs i g,
    returns (loop cfg i g) = negb (link_fatal (tick i))
    /\ returns (run cfg inputs g)
       = negb (existsb (fun j => link_fatal (tick j)) inputs).
Proof.
  intros cfg inputs i g. split; [apply loop_returns|].
  revert g. induction inputs as [|j rest IH]; intros g; [reflexivity|].
  rewrite run_cons. pose proof (loop_returns cfg j g) as R.
  cbn [existsb]. destruct (loop cfg j g) as [[] g1 tr1 | g1 tr1];
    cbn [returns] in R; rewrite <- (negb_involutive (link_fatal (tick j))), <- R.
  - rewrite returns_prepend. apply IH.
  - reflexivity.
Qed.

(** ** Time spent waiting *)

Lemma total_delay_app a b :
  total_delay (a ++ b) = total_delay a + total_delay b.
Proof.
  induction a as [|e a IH]; [reflexivity|].
  destruct e; cbn [app total_delay]; rewrite IH; lia.
Qed.

Lemma total_delay_waits k : total_delay (waits k) = 1000 * Z.of_nat k.
Proof. induction k; [reflexivity|]. cbn [waits total_delay]. lia. Qed.

Lemma total_delay_no_delay tr :
  count is_delay tr = 0%nat -> total_delay tr = 0.
Proof.
  induction tr as [|e tr IH]; [reflexivity|].
  rewrite count_cons. destruct e; cbn; try exact IH.
  intros H. discriminate H.
Qed.

Lemma first_up_unique (status : nat -> bool) k k' :
  status k = true -> (forall j, (j < k)%nat -> status j = false) ->
  status k' = true -> (forall j, (j < k')%nat -> status j = false) ->
  k = k'.
Proof.
  intros Hk Hlt Hk' Hlt'.
  destruct (Nat.lt_trichotomy k k') as [H | [H | H]]; auto.
  - rewrite (Hlt' k H) in Hk. discriminate.
  - rewrite (Hlt k' H) in Hk'. discriminate.
Qed.

(** X2.  [connectToWiFi] waits one second per failed status test and no
    longer: when the test number [k] (from 0, [k <= 10]) is the first to
    succeed, the call returns after exactly [k] waits, [1000 * k] ms of
    [delay]; in every case the call spends at most 11000 ms in [delay], and
    exactly 11000 ms when it ends in the restart. *)
Theorem connectToWiFi_waiting_time :
  forall cfg status g k,
    (k <= 10)%nat ->
    status k = true ->
    (forall j, (j < k)%nat -> status j = false) ->
    connectToWiFi cfg status g = Returned true g (link_init cfg ++ waits k)
    /\ total_delay (events (connectToWiFi cfg status g)) = 1000 * Z.of_nat k
    /\ (forall status' g',
          0 <= total_delay (events (connectToWiFi cfg status' g')) <= 11000
          /\ (returns (connectToWiFi cfg status' g') = false ->
              total_delay (events (connectToWiFi cfg status' g')) = 11000)).
Proof.
  intros cfg status g k Hk Hup Hdown.
  assert (E : connectToWiFi cfg status g
              = Returned true g (link_init cfg ++ waits k)).
  { destruct (connectToWiFi_cases cfg status g)
      as [(k' & Hk' & Hup' & Hdown' & E) | (Hall & _)].
    - now rewrite (first_up_unique status k k' Hup Hdown Hup' Hdown').
    - rewrite (Hall k Hk) in Hup. discriminate. }
  split; [exact E | split].
  - rewrite E. cbn [events]. rewrite total_delay_app, total_delay_waits.
    change (total_delay (link_init cfg)) with 0. lia.
  - intros status' g'.
    destruct (connectToWiFi_cases cfg status' g')
      as [(k' & Hk' & _ & _ & ->) | (_ & ->)]; cbn [events returns];
      rewrite !total_delay_app, total_delay_waits;
      change (total_delay (link_init cfg)) with 0;
      change (total_delay [EspRestart]) with 0; split; intros; try lia;
      discriminate.
Qed.

Lemma connectToWiFi_waiting_time_witness :
  (3 <= 10)%nat
  /\ up_after 3 3 = true
  /\ (forall j, (j < 3)%nat -> up_after 3 j = false)
  /\ total_delay (events (connectToWiFi demo_config (up_after 3) boot))
     = 1000 * Z.of_nat 3.
Proof.
  assert (H : forall j, (j < 3)%nat -> up_after 3 j = false)
    by (intros j Hj; apply Nat.leb_gt; exact Hj).
  split; [lia | split; [reflexivity | split; [exact H|]]].
  apply (connectToWiFi_waiting_time demo_config (up_after 3) boot 3%nat);
    [lia | reflexivity | exact H].
Defined.

Lemma total_delay_handshake cfg ok code :
  total_delay (handshake_trace cfg ok code) = 0.
Proof. destruct ok; reflexivity. Qed.

Lemma total_delay_callbacks msgs :
  total_delay (flat_map callback_trace msgs) = 0.
Proof.
  apply total_delay_no_delay. now apply count_callbacks.
Qed.

Lemma total_delay_sample i g1 : total_delay (sample_trace i g1) = 0.
Proof.
  unfold sample_trace, publish_trace.
  destruct (sample_due i g1); [destruct (mqttConnected g1)|]; reflexivity.
Qed.

Lemma handle_delay cfg i g :
  0 <= total_delay (events (handleMQTTConnection cfg i g))
  /\ (returns (handleMQTTConnection cfg i g) = true ->
      total_delay (events (handleMQTTConnection cfg i g)) <= 10000)
  /\ total_delay (events (handleMQTTConnection cfg i g)) <= 11000
  /\ (link_up i = true ->
      total_delay (events (handleMQTTConnection cfg i g)) = 0
      /\ count is_wifi_begin (events (handleMQTTConnection cfg i g)) = 0%nat).
Proof.
  handle_paths cfg i g; cbn [events returns].
  - change (total_delay (MqttLoop :: ?l)) with (total_delay l).
    assert (E : total_delay
                  (if callbackSet g
                   then flat_map callback_trace (inbox i) else []) = 0)
      by (destruct (callbackSet g);
          [apply total_delay_callbacks | reflexivity]).
    rewrite E. repeat split; try lia.
    count_events. destruct (callbackSet g); count_events; reflexivity.
  - change (total_delay (SerialPrintln ?s :: ?l)) with (total_delay l).
    rewrite total_delay_app, total_delay_handshake.
    assert (E : total_delay
                  (if handshake i
                   then [SerialPrintln "MQTT reconnected successfully!"]
                   else []) = 0) by (destruct (handshake i); reflexivity).
    rewrite E. repeat split; try lia.
    count_events. destruct (handshake i); reflexivity.
  - repeat split; cbn; lia.
  - change (total_delay (SerialPrintln ?s :: ?l)) with (total_delay l).
    rewrite !total_delay_app, total_delay_waits, total_delay_handshake.
    change (total_delay (link_init cfg)) with 0.
    repeat split; try lia; discriminate.
  - change (total_delay (SerialPrintln ?s :: ?l)) with (total_delay l).
    rewrite !total_delay_app, total_delay_waits.
    change (total_delay (link_init cfg)) with 0.
    change (total_delay [EspRestart]) with 0.
    repeat split; try lia; discriminate.
Qed.

(** X3.  The milliseconds one iteration of [loop] passes to [delay], added
    up.  When its tick finds the link up, the iteration returns, never
    calls [WiFi.begin], and its only delay is the closing [delay(10)]: 10 ms
    in all.  In every case the delays of one iteration add up to at most
    11000 ms, and to at most 10010 ms when the iteration returns.  Time
    spent inside the calls to the sensor, WiFi and MQTT libraries is not
    part of this sum. *)
Theorem iteration_waiting_time :
  forall cfg i g,
    link_up (tick i) = true ->
    returns (loop cfg i g) = true
    /\ total_delay (events (loop cfg i g)) = 10
    /\ count is_wifi_begin (events (loop cfg i g)) = 0%nat
    /\ (forall i' g',
          0 <= total_delay (events (loop cfg i' g')) <= 11000
          /\ (returns (loop cfg i' g') = true ->
              total_delay (events (loop cfg i' g')) <= 10010)).
Proof.
  intros cfg i g Hlink.
  assert (Hret : returns (loop cfg i g) = true).
  { rewrite loop_returns. unfold link_fatal. now rewrite Hlink. }
  split; [exact Hret | split; [|split]].
  - pose proof (handle_delay cfg (tick i) g) as (_ & _ & _ & Hup).
    destruct (Hup Hlink) as (Hd & _).
    destruct (loop_cases cfg i g)
      as [(g1 & tr1 & E & _ & _ & _ & El) | (g1 & tr1 & E & _ & _ & _ & El)];
      rewrite El in *; [|discriminate].
    rewrite E in Hd. cbn [events] in *.
    rewrite !total_delay_app, Hd, total_delay_sample. reflexivity.
  - pose proof (handle_delay cfg (tick i) g) as (_ & _ & _ & Hup).
    destruct (Hup Hlink) as (_ & Hw).
    destruct (loop_cases cfg i g)
      as [(g1 & tr1 & E & _ & _ & _ & El) | (g1 & tr1 & E & _ & _ & _ & El)];
      rewrite El in *; [|discriminate].
    rewrite E in Hw. cbn [events] in *.
    rewrite !count_app, Hw. unfold sample_trace, publish_trace.
    destruct (sample_due i g1); [destruct (mqttConnected g1)|]; reflexivity.
  - intros i' g'.
    pose proof (handle_delay cfg (tick i') g') as (H0 & Hr & H11 & _).
    destruct (loop_cases cfg i' g')
      as [(g1 & tr1 & E & _ & _ & _ & El) | (g1 & tr1 & E & _ & _ & _ & El)];
      rewrite El; rewrite E in *; cbn [events returns] in *.
    + rewrite !total_delay_app, total_delay_sample.
      change (total_delay [Delay 10]) with 10.
      specialize (Hr eq_refl). lia.
    + split; [lia | discriminate].
Qed.

Lemma iteration_waiting_time_witness :
  link_up (tick (iteration 11000 (steady_tick 11000) (2347 # 100))) = true
  /\ total_delay
       (events (loop demo_config
                  (iteration 11000 (steady_tick 11000) (2347 # 100)) online))
     = 10.
Proof.
  split; [reflexivity|].
  apply (iteration_waiting_time demo_config
           (iteration 11000 (steady_tick 11000) (2347 # 100)) online eq_refl).
Defined.

(** ** The session flag *)

Lemma handle_flag cfg i g :
  mqttConnected (final (handleMQTTConnection cfg i g))
  = if link_up i
    then if session_up i
         then mqttConnected g
         else reconnect_due i g && handshake i
    else negb (link_fatal i) && handshake i.
Proof.
  unfold reconnect_due.
  pose proof (handle_returns cfg i g) as R.
  handle_paths cfg i g; cbn [final returns mqttConnected set_mqttConnected] in *.
  - reflexivity.
  - apply Z.ltb_lt in Hdue. now rewrite Hdue.
  - apply Z.ltb_ge in Hdue. now rewrite Hdue.
  - now rewrite <- R.
  - now rewrite <- R.
Qed.

(** X4.  What a tick leaves in [mqttConnected] and in the reconnect timer.
    With the link and the client both up the tick leaves the flag as it
    was, set or not.  With the link up and the client not connected the
    flag is set exactly when the reconnect timer lets a handshake through
    and the handshake succeeds.  With the link down the flag is set exactly
    when the link comes back within the eleven status tests and the
    handshake that follows succeeds.  [lastReconnectAttempt] is stamped
    with the current time exactly when the timer lets a handshake through,
    whether it succeeds or not; the handshake of the link-down path does not
    stamp it. *)
Theorem session_flag_after_tick :
  forall cfg i g,
    mqttConnected (final (handleMQTTConnection cfg i g))
    = (if link_up i
       then if session_up i
            then mqttConnected g
            else reconnect_due i g && handshake i
       else negb (link_fatal i) && handshake i)
    /\ lastReconnectAttempt (final (handleMQTTConnection cfg i g))
       = (if link_up i && negb (session_up i) && reconnect_due i g
          then millis (clock i) else lastReconnectAttempt g).
Proof.
  intros cfg i g. split; [apply handle_flag|].
  unfold reconnect_due.
  handle_paths cfg i g; cbn [final andb negb]; try reflexivity.
  - apply Z.ltb_lt in Hdue. now rewrite Hdue.
  - apply Z.ltb_ge in Hdue. now rewrite Hdue.
Qed.

(** ** [setup], end to end *)

(** X5.  [setup] returns exactly when one of its eleven status tests finds
    the link up.  It then has called [WiFi.begin] once and made one session
    handshake, [mqttConnected] is the result of that handshake, the callback
    is registered, "online" has been published if and only if the handshake
    succeeded, and neither timer has been touched: no sample is due before
    [SAMPLE_INTERVAL], and a failed handshake is retried only once
    [millis()] exceeds [MQTT_RECONNECT_INTERVAL].  When [setup] does not
    return it has made no handshake and published nothing. *)
Theorem setup_connects_once :
  forall cfg i g,
    returns (setup cfg i g)
      = existsb (fun k => boot_assoc i k) (seq 0 11)
    /\ count is_wifi_begin (events (setup cfg i g)) = 1%nat
    /\ count is_connect (events (setup cfg i g))
       = (if returns (setup cfg i g) then 1%nat else 0%nat)
    /\ count is_publish (events (setup cfg i g))
       = (if returns (setup cfg i g) && boot_handshake i
          then 1%nat else 0%nat)
    /\ count (is_publish_on MQTT_TOPIC_STATUS) (events (setup cfg i g))
       = count is_publish (events (setup cfg i g))
    /\ mqttConnected (final (setup cfg i g))
       = (if returns (setup cfg i g)
          then boot_handshake i else mqttConnected g)
    /\ callbackSet (final (setup cfg i g))
       = (if returns (setup cfg i g) then true else callbackSet g)
    /\ lastSampleTime (final (setup cfg i g)) = lastSampleTime g
    /\ lastReconnectAttempt (final (setup cfg i g)) = lastReconnectAttempt g.
Proof.
  intros cfg i g.
  destruct (setup_cases cfg i g) as [(k & Hk & Hup & ->) | (Hdown & ->)];
    cbn [events final returns andb]; unfold setup_banner, link_init.
  - split.
    { symmetry. apply existsb_exists. exists k. split; [|exact Hup].
      apply in_seq. lia. }
    repeat split; count_events; destruct (boot_handshake i); reflexivity.
  - split.
    { symmetry. apply not_true_is_false. intros H.
      apply existsb_exists in H. destruct H as (k & Hin & Hup).
      apply in_seq in Hin. rewrite Hdown in Hup by lia. discriminate. }
    repeat split; count_events; reflexivity.
Qed.

(** ** Counting over a run *)

Lemma events_run_cons cfg i rest g :
  events (run cfg (i :: rest) g)
  = events (loop cfg i g)
    ++ (if returns (loop cfg i g)
        then events (run cfg rest (final (loop cfg i g))) else []).
Proof.
  rewrite run_cons. destruct (loop cfg i g) as [[] g1 tr1 | g1 tr1];
    cbn [events returns final].
  - apply events_prepend.
  - now rewrite app_nil_r.
Qed.

Lemma run_count_le cfg p q :
  (forall i g, (count p (events (loop cfg i g))
                <= count q (events (loop cfg i g)))%nat) ->
  forall inputs g,
    (count p (events (run cfg inputs g))
     <= count q (events (run cfg inputs g)))%nat.
Proof.
  intros H inputs. induction inputs as [|i rest IH]; intros g;
    [apply Nat.le_refl|].
  rewrite events_run_cons, !count_app. specialize (H i g).
  destruct (returns (loop cfg i g)).
  - specialize (IH (final (loop cfg i g))). lia.
  - cbn. lia.
Qed.

Lemma loop_counts cfg i g :
  (count (is_publish_on MQTT_TOPIC_TEMPERATURE) (events (loop cfg i g))
   <= count is_request (events (loop cfg i g)))%nat
  /\ (count is_request (events (loop cfg i g)) <= 1)%nat
  /\ (count (is_publish_on MQTT_TOPIC_STATUS) (events (loop cfg i g))
      <= count is_connect (events (loop cfg i g)))%nat
  /\ count is_stray_publish (events (loop cfg i g)) = 0%nat.
Proof.
  assert (Htick :
    (count (is_publish_on MQTT_TOPIC_STATUS)
       (events (handleMQTTConnection cfg (tick i) g))
     <= count is_connect (events (handleMQTTConnection cfg (tick i) g)))%nat
    /\ count is_stray_publish
         (events (handleMQTTConnection cfg (tick i) g)) = 0%nat).
  { handle_paths cfg (tick i) g; cbn [events]; unfold link_init;
      split; count_events;
      try destruct (callbackSet g); try destruct (handshake (tick i));
      count_events; cbn; lia. }
  destruct Htick as (Hs & Ho).
  destruct (loop_cases cfg i g)
    as [(g1 & tr1 & E & _ & Hr & Hp & ->) | (g1 & tr1 & E & _ & Hr & Hp & ->)];
    rewrite E in *; cbn [events] in *.
  - rewrite !count_app, Hr, Hp, Ho, count_sample_request,
      count_sample_publish, count_sample_connect.
    assert (count (is_publish_on MQTT_TOPIC_STATUS) (sample_trace i g1) = 0
            /\ count is_stray_publish (sample_trace i g1) = 0)%nat as (-> & ->).
    { unfold sample_trace, publish_trace.
      destruct (sample_due i g1); [destruct (mqttConnected g1)|];
        split; reflexivity. }
    destruct (sample_due i g1), (mqttConnected g1); cbn; lia.
  - rewrite Hr, Hp, Ho. lia.
Qed.

(** X6.  Over any run of [loop], from any globals: the sensor is asked for
    at most one sample per iteration; a reading is published at most once
    per sample taken; "online" is published at most once per session
    handshake; and nothing is ever published on a topic other than the
    status topic and the temperature topic. *)
Theorem run_publishes_within_bounds :
  forall cfg inputs g,
    (count is_request (events (run cfg inputs g)) <= List.length inputs)%nat
    /\ (count (is_publish_on MQTT_TOPIC_TEMPERATURE)
          (events (run cfg inputs g))
        <= count is_request (events (run cfg inputs g)))%nat
    /\ (count (is_publish_on MQTT_TOPIC_STATUS) (events (run cfg inputs g))
        <= count is_connect (events (run cfg inputs g)))%nat
    /\ count is_stray_publish (events (run cfg inputs g)) = 0%nat.
Proof.
  intros cfg inputs g. repeat split.
  - revert g. induction inputs as [|i rest IH]; intros g; [apply Nat.le_refl|].
    rewrite events_run_cons, count_app.
    pose proof (loop_counts cfg i g) as (_ & H1 & _).
    destruct (returns (loop cfg i g)).
    + specialize (IH (final (loop cfg i g))). cbn [List.length]. lia.
    + cbn. lia.
  - apply run_count_le. intros i g'. apply loop_counts.
  - apply run_count_le. intros i g'. apply loop_counts.
  - apply Nat.le_0_r.
    apply (Nat.le_trans _
             (count (fun _ => false) (events (run cfg inputs g)))).
    + apply run_count_le. intros i g'.
      destruct (loop_counts cfg i g') as (_ & _ & _ & ->). lia.
    + unfold count. clear. induction (events (run cfg inputs g)); cbn; lia.
Qed.

(** ** Spacing of samples *)

Lemma sampled_stamp cfg i g :
  (sampled cfg i g = true ->
   lastSampleTime (final (loop cfg i g)) = millis (loop_clock i)
   /\ SAMPLE_INTERVAL
      <= ULong.sub (millis (loop_clock i)) (lastSampleTime g))
  /\ (sampled cfg i g = false ->
      lastSampleTime (final (loop cfg i g)) = lastSampleTime g).
Proof.
  unfold sampled. destruct (loop_sampling cfg i g) as (-> & ->).
  unfold sample_due.
  destruct (returns (loop cfg i g)); cbn [andb];
    [|split; [discriminate | reflexivity]].
  destruct (Z.leb_spec SAMPLE_INTERVAL
              (ULong.sub (millis (loop_clock i)) (lastSampleTime g)));
    cbn; split; auto; discriminate.
Qed.

Lemma idle_keeps_stamp cfg inputs : forall g,
  idle cfg inputs g ->
  lastSampleTime (final (run cfg inputs g)) = lastSampleTime g.
Proof.
  induction inputs as [|i rest IH]; intros g; [reflexivity|].
  intros (Hq & Hret & Hrest).
  rewrite (final_run_cons cfg i rest g Hret), (IH _ Hrest).
  now apply (proj2 (sampled_stamp cfg i g)).
Qed.



(** ** Incoming messages *)

Lemma collect_prefix (mid tail : list ascii) : forall (seen : list ascii) acc,
  fold_left
    (fun (message : string) (i : nat) =>
       (message ++ String (nth i (seen ++ mid ++ tail) zero) EmptyString)%string)
    (seq (List.length seen) (List.length mid)) acc
  = (acc ++ string_of_list_ascii mid)%string.
Proof.
  induction mid as [|c mid IH]; intros seen acc; simpl.
  - clear. induction acc; simpl; congruence.
  - rewrite app_nth2, Nat.sub_diag by lia. simpl nth.
    replace (seen ++ c :: mid ++ tail)%list
      with ((seen ++ [c]) ++ mid ++ tail)%list by now rewrite <- app_assoc.
    replace (S (List.length seen)) with (List.length (seen ++ [c]))
      by (rewrite length_app; simpl; lia).
    rewrite IH. clear. induction acc; simpl; congruence.
Qed.

(** X8.  [mqttCallback] logs the topic and exactly the first [length] bytes
    of the payload, nothing of what follows them in the buffer (nothing at
    all when [length] is 0); it changes no global and calls nothing but the
    console. *)
Theorem mqttCallback_logs_prefix :
  forall topic payload n g,
    (n <= List.length payload)%nat ->
    mqttCallback topic payload n g
    = Returned tt g
        [SerialPrint "MQTT Message received ["; SerialPrint topic;
         SerialPrint "]: ";
         SerialPrintln (string_of_list_ascii (firstn n payload))].
Proof.
  intros topic payload n g Hn. unfold mqttCallback.
  rewrite !bind_emit. cbn [emit prepend app].
  pose proof (collect_prefix (firstn n payload) (skipn n payload) []
                EmptyString) as H.
  rewrite firstn_length_le in H by exact Hn.
  cbn [app List.length append] in H. rewrite firstn_skipn in H.
  now rewrite H.
Qed.

Lemma mqttCallback_logs_prefix_witness :
  (2 <= List.length ["h"; "i"; "!"; "?"]%char)%nat
  /\ mqttCallback "cmd" ["h"; "i"; "!"; "?"]%char 2 boot
     = Returned tt boot
         [SerialPrint "MQTT Message received ["; SerialPrint "cmd";
          SerialPrint "]: "; SerialPrintln "hi"].
Proof.
  assert (H : (2 <= List.length ["h"; "i"; "!"; "?"]%char)%nat)
    by (cbn; lia).
  split; [exact H|].
  apply (mqttCallback_logs_prefix "cmd" ["h"; "i"; "!"; "?"]%char 2 boot H).
Defined.

(** ** The payload buffer *)

Lemma length_append (a b : string) :
  String.length (a ++ b) = (String.length a + String.length b)%nat.
Proof. induction a; simpl; auto. Qed.

Lemma length_blanks n : String.length (blanks n) = n.
Proof. induction n; simpl; auto. Qed.

Lemma decimal_length_small n :
  0 <= n < 1000 -> (1 <= String.length (decimal n) <= 3)%nat.
Proof.
  intros H.
  assert (A : forallb
                (fun k => let l := String.length (decimal (Z.of_nat k)) in
                          Nat.leb 1 l && Nat.leb l 3)
                (seq 0 1000) = true) by (vm_compute; reflexivity).
  rewrite forallb_forall in A.
  specialize (A (Z.to_nat n)). rewrite Z2Nat.id in A by lia.
  cbv zeta in A. rewrite andb_true_iff, !Nat.leb_le in A.
  apply A. apply in_seq. lia.
Qed.

Lemma tenths_bound t :
  (Qabs t <= 999 # 1)%Q -> Qfloor (Qabs t * inject_Z 10 + (1 # 2)) < 10000.
Proof.
  intros H.
  assert (Hle : (Qabs t * inject_Z 10 + (1 # 2)
                 <= (999 # 1) * inject_Z 10 + (1 # 2))%Q).
  { apply Qplus_le_l. apply Qmult_le_compat_r; [exact H | discriminate]. }
  apply Qfloor_resp_le in Hle.
  change (Qfloor ((999 # 1) * inject_Z 10 + (1 # 2))) with 9990 in Hle. lia.
Qed.

(** X9.  For every reading of magnitude at most 999 (the whole range of the
    sensor, and the -127 of a missing sensor), the payload that
    [publishTemperatureData] formats is exactly 6 characters long, so with
    its terminator it fits the 20-byte buffer [payload]. *)
Theorem payload_fits_buffer :
  forall t g,
    (Qabs t <= 999 # 1)%Q ->
    events (publishTemperatureData t g)
      = [MqttPublish MQTT_TOPIC_TEMPERATURE (dtostrf t 6 1);
         SerialPrint "Published to MQTT: "; SerialPrint (dtostrf t 6 1);
         SerialPrintln " C"]
    /\ String.length (dtostrf t 6 1) = 6%nat
    /\ (String.length (dtostrf t 6 1) + 1 <= 20)%nat.
Proof.
  intros t g Ht. split; [reflexivity|].
  assert (L : String.length (dtostrf t 6 1) = 6%nat); [|rewrite L; lia].
  pose proof (tenths_bound t Ht) as Hn. pose proof (tenths_nonneg t) as H0.
  unfold dtostrf. cbn [Z.of_nat Pos.of_succ_nat]. change (10 ^ 1) with 10.
  set (n := Qfloor (Qabs t * inject_Z 10 + (1 # 2))) in *.
  assert (Hd : (1 <= String.length (decimal (n / 10)) <= 3)%nat).
  { apply decimal_length_small. split.
    - apply Z.div_pos; lia.
    - apply Z.div_lt_upper_bound; lia. }
  rewrite length_append, length_blanks, !length_append.
  cbn [frac_digits append String.length].
  destruct (negb (Qle_bool 0 t)); cbn [String.length]; lia.
Qed.

Lemma payload_fits_buffer_witness :
  (Qabs DEVICE_DISCONNECTED_C <= 999 # 1)%Q
  /\ String.length (dtostrf DEVICE_DISCONNECTED_C 6 1) = 6%nat.
Proof.
  assert (H : (Qabs DEVICE_DISCONNECTED_C <= 999 # 1)%Q)
    by (vm_compute; discriminate).
  split; [exact H|].
  apply (payload_fits_buffer DEVICE_DISCONNECTED_C boot H).
Defined.

(** ** Globals that are never used *)

Lemma handle_dead_globals cfg i g :
  wifiConnected (final (handleMQTTConnection cfg i g))
    = link_up i && wifiConnected g
  /\ lastMqttPublish (final (handleMQTTConnection cfg i g))
     = lastMqttPublish g.
Proof. handle_paths cfg i g; cbn; auto. Qed.

Lemma loop_dead_globals cfg i g :
  wifiConnected (final (loop cfg i g))
    = link_up (tick i) && wifiConnected g
  /\ lastMqttPublish (final (loop cfg i g)) = lastMqttPublish g.
Proof.
  pose proof (handle_dead_globals cfg (tick i) g) as H.
  destruct (loop_cases cfg i g)
    as [(g1 & tr1 & E & _ & _ & _ & ->) | (g1 & tr1 & E & _ & _ & _ & ->)];
    rewrite E in H; cbn [final] in *; [|exact H].
  destruct (sample_due i g1); exact H.
Qed.

(** X10.  No code path sets [wifiConnected]: a tick that finds the link down
    clears it, every other tick leaves it alone, so from a state where it
    is clear (as at boot) it is still clear after [setup] and after any run
    of [loop], even while the link is up.  [lastMqttPublish] is never
    written at all. *)
Theorem link_flag_never_set :
  forall cfg si inputs g,
    wifiConnected g = false ->
    wifiConnected (final (setup cfg si g)) = false
    /\ wifiConnected (final (run cfg inputs g)) = false
    /\ lastMqttPublish (final (setup cfg si g)) = lastMqttPublish g
    /\ lastMqttPublish (final (run cfg inputs g)) = lastMqttPublish g
    /\ (forall i g',
          wifiConnected (final (handleMQTTConnection cfg i g'))
          = link_up i && wifiConnected g').
Proof.
  intros cfg si inputs g Hw.
  assert (Hrun : forall g0,
            wifiConnected g0 = false ->
            wifiConnected (final (run cfg inputs g0)) = false
            /\ lastMqttPublish (final (run cfg inputs g0)) = lastMqttPublish g0).
  { induction inputs as [|i rest IH]; intros g0 H0; [now split|].
    simpl run.
    apply (final_bind _ _ g0
             (fun g1 => wifiConnected g1 = false
                        /\ lastMqttPublish g1 = lastMqttPublish g0)).
    - destruct (loop_dead_globals cfg i g0) as (-> & ->).
      rewrite H0. now rewrite andb_false_r.
    - intros _ g1 (H1 & H2). destruct (IH g1 H1) as (H3 & H4).
      split; congruence. }
  destruct (Hrun g Hw) as (R1 & R2).
  destruct (setup_cases cfg si g) as [(k & _ & _ & ->) | (_ & ->)];
    cbn [final wifiConnected lastMqttPublish set_mqttConnected set_callbackSet];
    repeat split; auto; intros i g'; apply handle_dead_globals.
Qed.

Lemma link_flag_never_set_witness :
  wifiConnected boot = false
  /\ wifiConnected
       (final (run demo_config
                 [iteration 11000 (steady_tick 11000) (2347 # 100)] boot))
     = false.
Proof.
  split; [reflexivity|].
  apply (link_flag_never_set demo_config
           quick_boot
           [iteration 11000 (steady_tick 11000) (2347 # 100)] boot eq_refl).
Defined.

(** ** An iteration, from its inputs *)

(** X11.  What one iteration of [loop] asks and publishes, read off its
    inputs and the globals it starts from.  The sensor is asked exactly
    when the sampling timer is due and the tick does not end in the
    restart, whatever the state of the link and of the session.  The
    reading is published exactly when, in addition, [mqttConnected] is set
    after the tick: the flag was set and link and client are both up, or
    the client was not connected and a handshake let through by the
    reconnect timer succeeded, or the link was down, came back and the
    handshake that followed succeeded. *)
Theorem iteration_from_inputs :
  forall cfg i g,
    count is_request (events (loop cfg i g))
    = (if negb (link_fatal (tick i)) && sample_due i g
       then 1%nat else 0%nat)
    /\ count (is_publish_on MQTT_TOPIC_TEMPERATURE) (events (loop cfg i g))
       = (if sample_due i g
             && (if link_up (tick i)
                 then if session_up (tick i)
                      then mqttConnected g
                      else reconnect_due (tick i) g && handshake (tick i)
                 else negb (link_fatal (tick i)) && handshake (tick i))
          then 1%nat else 0%nat).
Proof.
  intros cfg i g. split.
  - rewrite <- (loop_returns cfg i g). apply loop_sampling.
  - rewrite <- (handle_flag cfg (tick i) g).
    pose proof (handle_returns cfg (tick i) g) as R.
    pose proof (handle_flag cfg (tick i) g) as F.
    destruct (loop_cases cfg i g)
      as [(g1 & tr1 & E & Hl & _ & Hp & ->) | (g1 & tr1 & E & Hl & _ & Hp & ->)];
      rewrite E in *; cbn [events final returns] in *.
    + rewrite !count_app, Hp, count_sample_publish,
        (sample_due_frame i g1 g Hl).
      destruct (sample_due i g && mqttConnected g1); reflexivity.
    + rewrite Hp, F. symmetry in R. apply negb_false_iff in R.
      pose proof (proj1 (link_fatal_spec (tick i)) R) as (Hdown & _).
      rewrite Hdown, R. cbn. now rewrite andb_false_r.
Qed.

(** ** The first sample after boot *)

Lemma sub_zero_millis t : ULong.sub (millis t) 0 = millis t.
Proof.
  unfold ULong.sub, millis, ULong.wrap. rewrite Z.sub_0_r.
  apply Z.mod_mod. discriminate.
Qed.

(** X12.  No reading is taken before [millis()] has reached
    [SAMPLE_INTERVAL]: starting from the initial globals, when [setup] has
    returned and the iterations run so far have taken no sample, an
    iteration that takes one has read a clock value of at least 10000. *)
Theorem first_sample_after_interval :
  forall cfg si mid j,
    returns (setup cfg si boot) = true ->
    idle cfg mid (final (setup cfg si boot)) ->
    sampled cfg j (final (run cfg mid (final (setup cfg si boot)))) = true ->
    SAMPLE_INTERVAL <= millis (loop_clock j).
Proof.
  intros cfg si mid j _ Hmid Hj.
  pose proof (idle_keeps_stamp cfg mid _ Hmid) as Hkeep.
  destruct (proj1 (sampled_stamp cfg j _) Hj) as (_ & Hgap).
  assert (Hs : lastSampleTime (final (setup cfg si boot)) = 0)
    by (destruct (setup_cases cfg si boot) as [(k & _ & _ & ->) | (_ & ->)];
        reflexivity).
  rewrite Hkeep, Hs in Hgap.
  now rewrite sub_zero_millis in Hgap.
Qed.

Lemma first_sample_after_interval_witness :
  returns (setup demo_config quick_boot boot) = true
  /\ idle demo_config [iteration 4000 (steady_tick 4000) (2347 # 100)]
       (final (setup demo_config quick_boot boot))
  /\ sampled demo_config
       (iteration 11000 (steady_tick 11000) (2347 # 100))
       (final (run demo_config
                 [iteration 4000 (steady_tick 4000) (2347 # 100)]
                 (final (setup demo_config quick_boot boot)))) = true
  /\ SAMPLE_INTERVAL <= millis 11000.
Proof.
  assert (Hq : idle demo_config
                 [iteration 4000 (steady_tick 4000) (2347 # 100)]
                 (final (setup demo_config quick_boot boot)))
    by (vm_compute; repeat split).
  split; [reflexivity | split; [exact Hq | split; [reflexivity|]]].
  exact (first_sample_after_interval demo_config quick_boot
           [iteration 4000 (steady_tick 4000) (2347 # 100)]
           (iteration 11000 (steady_tick 11000) (2347 # 100))
           eq_refl Hq eq_refl).
Defined.
